(** * The scatter-gather engine of the forecast dashboard (sfs/app/app.py)

    A shallow embedding of the functions of [app.py] that partition a
    dataset into work units ([run_lambdamap]), submit them to a worker pool
    ([StreamlitExecutor.map]), poll the futures ([display_progress]), filter
    rows by group key ([make_mask]) and aggregate the per-unit results
    ([make_dataframes], [panel_launch_forecast]).

    Conventions of the embedding:
    - a pandas DataFrame is the list of its rows, in index order; the rows
      of one frame share one record type (its columns);
    - strings are [String.string], [len(...)] and pool sizes are [nat];
    - a pandas timestamp is its [int64] value; demand values are modelled
      as integers ([Z]), the properties below depend on their sums and
      their order only;
    - a Python exception is a value of [Exception]; code that may raise
      runs in the state-and-exception monad [M] over the session state. *)

From Stdlib Require Import List ZArith Lia Bool Arith String Ascii.
From Stdlib Require Import Permutation Sorted.
From Stdlib Require OrderedTypeEx.
Import ListNotations.

Local Open Scope list_scope.

(** Python's [len] on a list or frame. *)
Abbreviation len := List.length (only parsing).

(* ================================================================= *)
(** ** Data model *)

(** Modelled from the spec: the constant [GROUP_COLS] is imported from
    package [sfs], which is not under src/. The spec's groupKey is
    (channel, family, itemId); these are the three columns that [make_mask]
    and [panel_visualization] read by name. *)
Definition GroupKey : Type := (string * string * string)%type.

(** Frames whose rows carry the three grouping columns
    ([df["channel"]], [df["family"]], [df["item_id"]]). *)
Class GroupCols (R : Type) : Type := {
  col_channel : R -> string;
  col_family : R -> string;
  col_item_id : R -> string
}.

Definition group_key {R} `{GroupCols R} (r : R) : GroupKey :=
  (col_channel r, col_family r, col_item_id r).

(** A row of the input dataset ([state.df], [state.df2]). *)
Record DataRow : Type := {
  d_timestamp : Z;
  d_channel : string;
  d_family : string;
  d_item_id : string;
  d_demand : Z
}.

(** A row of a predictions frame: the timestamp index and the columns
    [channel], [family], [item_id], [demand], [type]. *)
Record PredRow : Type := {
  p_timestamp : Z;
  p_channel : string;
  p_family : string;
  p_item_id : string;
  p_demand : Z;
  p_type : string
}.

(** A row of a results (metrics) frame. *)
Record ResultRow : Type := {
  r_channel : string;
  r_family : string;
  r_item_id : string;
  r_model_type : string;
  r_scores : list Z
}.

(** A row of the leaderboard: the grouping columns and the summed demand. *)
Record TopRow : Type := {
  t_channel : string;
  t_family : string;
  t_item_id : string;
  t_demand : Z
}.

#[export] Instance DataRow_cols : GroupCols DataRow :=
  {| col_channel := d_channel; col_family := d_family; col_item_id := d_item_id |}.
#[export] Instance PredRow_cols : GroupCols PredRow :=
  {| col_channel := p_channel; col_family := p_family; col_item_id := p_item_id |}.
#[export] Instance ResultRow_cols : GroupCols ResultRow :=
  {| col_channel := r_channel; col_family := r_family; col_item_id := r_item_id |}.
#[export] Instance TopRow_cols : GroupCols TopRow :=
  {| col_channel := t_channel; col_family := t_family; col_item_id := t_item_id |}.

Definition key_eqb (a b : GroupKey) : bool :=
  let '(c1, f1, i1) := a in
  let '(c2, f2, i2) := b in
  ((c1 =? c2) && (f1 =? f2) && (i1 =? i2))%string.

Arguments key_eqb : simpl never.

Definition key_dec (a b : GroupKey) : {a = b} + {a <> b}.
Proof.
  decide equality; [apply string_dec | decide equality; apply string_dec].
Defined.

(** Python's ordering of key tuples: lexicographic, strings by code point. *)
Definition key_compare (a b : GroupKey) : comparison :=
  let '(c1, f1, i1) := a in
  let '(c2, f2, i2) := b in
  match String.compare c1 c2 with
  | Eq => match String.compare f1 f2 with
          | Eq => String.compare i1 i2
          | c => c
          end
  | c => c
  end.

Definition key_ltb (a b : GroupKey) : bool :=
  match key_compare a b with Lt => true | _ => false end.

(* ================================================================= *)
(** ** make_mask *)

(** [mask &= column == value]: element-wise conjunction of two boolean
    arrays of the same length. *)
Definition mask_and (mask col : list bool) : list bool :=
  map (fun '(a, b) => a && b) (combine mask col).

(** [df[mask]]: boolean indexing. *)
Fixpoint boolean_index {R} (df : list R) (mask : list bool) : list R :=
  match df, mask with
  | r :: df', b :: mask' =>
      if b then r :: boolean_index df' mask' else boolean_index df' mask'
  | _, _ => []
  end.

Definition make_mask {R} `{GroupCols R}
    (df : list R) (channel family item_id : string) : list bool :=
  let mask := repeat true (len df) in
  if ((channel =? "") || (family =? "") || (item_id =? ""))%string
  then map negb mask
  else
    let mask := mask_and mask (map (fun r => (col_channel r =? channel)%string) df) in
    let mask := mask_and mask (map (fun r => (col_family r =? family)%string) df) in
    let mask := mask_and mask (map (fun r => (col_item_id r =? item_id)%string) df) in
    mask.

(** The copy nested in [page_view_report] (same lines). *)
Module page_view_report.

Definition make_mask {R} `{GroupCols R}
    (df : list R) (channel family item_id : string) : list bool :=
  let mask := repeat true (len df) in
  if ((channel =? "") || (family =? "") || (item_id =? ""))%string
  then map negb mask
  else
    let mask := mask_and mask (map (fun r => (col_channel r =? channel)%string) df) in
    let mask := mask_and mask (map (fun r => (col_family r =? family)%string) df) in
    let mask := mask_and mask (map (fun r => (col_item_id r =? item_id)%string) df) in
    mask.

End page_view_report.

(** The row test the mask is claimed to compute. *)
Definition row_matches {R} `{GroupCols R}
    (channel family item_id : string) (r : R) : bool :=
  ((col_channel r =? channel) && (col_family r =? family)
   && (col_item_id r =? item_id))%string.

(* ================================================================= *)
(** ** Sorting and grouping primitives of numpy and pandas *)

Section InsertionSort.
Context {A : Type} (lt : A -> A -> bool).

(** One pass of the insertion sort: [x] lands before the first element
    strictly greater than it, that is after every element equal to it. *)
Fixpoint insert (x : A) (l : list A) : list A :=
  match l with
  | [] => [x]
  | y :: l' => if lt x y then x :: l else y :: insert x l'
  end.

(** Elements are taken left to right. *)
Definition insertion_sort (l : list A) : list A :=
  fold_left (fun acc x => insert x acc) l [].
End InsertionSort.

(** Appends row [r] to the group of key [k], or opens a new group at the
    end: groups come in first-seen order, rows keep their frame order. *)
Fixpoint group_append {R} (k : GroupKey) (r : R)
    (groups : list (GroupKey * list R)) : list (GroupKey * list R) :=
  match groups with
  | [] => [(k, [r])]
  | (k', rows) :: rest =>
      if key_eqb k k' then (k', rows ++ [r]) :: rest
      else (k', rows) :: group_append k r rest
  end.

(** [df.groupby(GROUP_COLS, as_index=False, sort=sort)], as the sequence of
    [(key, sub-frame)] pairs it iterates over. With [sort=True] (the pandas
    default) the groups come in ascending key order, with [sort=False] in
    order of first appearance. *)
Definition groupby {R} `{GroupCols R} (df : list R) (sort : bool)
    : list (GroupKey * list R) :=
  let groups := fold_left (fun g r => group_append (group_key r) r g) df [] in
  if sort
  then insertion_sort (fun a b => key_ltb (fst a) (fst b)) groups
  else groups.

(** The rows of frame [l] that carry key [k], in frame order. *)
Definition rows_of_key {R} `{GroupCols R} (l : list R) (k : GroupKey)
    : list R :=
  filter (fun r => key_eqb (group_key r) k) l.

(** [g] holds one group per key present in [l], each with exactly the rows
    of its key in frame order. *)
Definition groups_of {R} `{GroupCols R}
    (g : list (GroupKey * list R)) (l : list R) : Prop :=
  NoDup (map fst g)
  /\ (forall k, In k (map fst g) <-> In k (map group_key l))
  /\ (forall k rows, In (k, rows) g -> rows = rows_of_key l k).

(** Python's [sum] over a column. *)
Definition sum (l : list Z) : Z := fold_left Z.add l 0%Z.

(** [.agg({"demand": sum})] on the groups of a predictions frame, with
    [as_index=False]: the key columns and the summed demand. *)
Definition agg_demand_sum (groups : list (GroupKey * list PredRow))
    : list TopRow :=
  map (fun '((c, f, i), rows) =>
         {| t_channel := c; t_family := f; t_item_id := i;
            t_demand := sum (map p_demand rows) |}) groups.

(** [.sort_values(by="demand", ascending=False)]. pandas ([nargsort])
    reverses the column, argsorts it in ascending order with numpy's default
    kind and reverses the outcome. numpy's default kind sorts an array of at
    most 16 elements by insertion; on longer arrays it partitions first and
    the place of equal keys is then not determined by this model. *)
Definition sort_values_demand_desc (df : list TopRow) : list TopRow :=
  rev (insertion_sort (fun a b => (t_demand a <? t_demand b)%Z) (rev df)).

(** [.head(n)]. *)
Definition head {R} (n : nat) (df : list R) : list R := firstn n df.

(** [np.arange(n) + 1]. *)
Definition arange_plus_1 (n : nat) : list Z :=
  map (fun i => (Z.of_nat i + 1)%Z) (seq 0 n).

(* ================================================================= *)
(** ** Exceptions, futures *)

Inductive Exception : Type :=
| ValueError (msg : string)
| UnitExecutionError (reason : string)
| TransientInvocationError (reason : string).

(** What the unit computation returns: [(df_pred, df_results)]. *)
Definition UnitOutput : Type := (list PredRow * list ResultRow)%type.

Inductive Outcome : Type :=
| Returned (out : UnitOutput)
| Raised (exn : Exception).

(** A [concurrent.futures.Future] as its readers see it: [done()] answers
    [True] from the poll numbered [done_at] on, and [result()] then returns
    or re-raises [outcome]. *)
Record Future : Type := {
  done_at : nat;
  outcome : Outcome
}.

Definition done (now : nat) (f : Future) : bool := done_at f <=? now.

Definition result (f : Future) : Exception + UnitOutput :=
  match outcome f with
  | Returned out => inr out
  | Raised exn => inl exn
  end.



Definition is_completed (f : Future) : bool :=
  match outcome f with Returned _ => true | Raised _ => false end.

(** [futures.as_completed(wait_for)]: the futures, each once, in the order
    in which the runtime hands them over; [order] lists their positions in
    [wait_for] in that order. *)
Definition as_completed (wait_for : list Future) (order : list nat)
    : list Future :=
  flat_map (fun i => match nth_error wait_for i with
                     | Some f => [f]
                     | None => []
                     end) order.

(** [[f.result() for f in fs]]: stops at the first future that raises. *)
Fixpoint results (fs : list Future) : Exception + list UnitOutput :=
  match fs with
  | [] => inr []
  | f :: fs' =>
      match result f with
      | inl exn => inl exn
      | inr out =>
          match results fs' with
          | inl exn => inl exn
          | inr outs => inr (out :: outs)
          end
      end
  end.

(* ================================================================= *)
(** ** Work units and the executor *)

Record Kwargs : Type := {
  obj_metric : string;
  cv_stride : Z
}.

(** One payload: [{"args": (dd, horiz, freq), "kwargs": {...}}]. *)
Record Payload : Type := {
  args : list DataRow * Z * string;
  kwargs : Kwargs
}.

(** A Python callable submitted to the pool. Calling it is an effect: the
    first argument numbers the calls made for one work item (0 for the
    first), so that a call that fails now may succeed later. *)
Definition Callable : Type := nat -> Payload -> Outcome.

(** Modelled from the spec: the base class [LambdaExecutor] (package
    [lambdamap]) is not under src/. Of the executor object the model keeps
    what [StreamlitExecutor.map] and [run_lambdamap] touch: the pool size
    it was built with, the ARN of the remote function and, for its pool
    [_executor], the work items accepted so far. *)
Record Executor : Type := {
  _max_workers : nat;
  _lambda_arn : string;
  _work_queue : list Payload
}.

Section Runtime.
(** The unit computation of package [sfs] and the remote proxy class of
    package [lambdamap] are imported, not defined under src/. *)
Variable run_cv_select : Callable.
Variable LambdaFunction : Callable -> string -> Callable.
(** The poll at which the work item accepted in position [i] has run. *)
Variable finish_tick : nat -> nat.

(** [ex.submit(f, *args, **kwargs)] on a [concurrent.futures] pool: the
    pool accepts the work item and returns its future; a worker calls [f]
    once and stores what the call returns or raises in the future. *)
Definition submit (ex : Executor) (f : Callable) (p : Payload)
    : Future * Executor :=
  ({| done_at := finish_tick (len (_work_queue ex));
      outcome := f 0 p |},
   {| _max_workers := _max_workers ex;
      _lambda_arn := _lambda_arn ex;
      _work_queue := _work_queue ex ++ [p] |}).

(** The list comprehension of [map]: one [submit] per payload. *)
Fixpoint submit_all (ex : Executor) (f : Callable) (payloads : list Payload)
    : list Future * Executor :=
  match payloads with
  | [] => ([], ex)
  | p :: payloads' =>
      let '(fut, ex1) := submit ex f p in
      let '(futs, ex2) := submit_all ex1 f payloads' in
      (fut :: futs, ex2)
  end.

Definition StreamlitExecutor_map (self : Executor) (func : Callable)
    (payloads : list Payload) (local_mode : bool)
    : list Future * Executor :=
  let f := if local_mode then func
           else LambdaFunction func (_lambda_arn self) in
  let wait_for := submit_all self f payloads in
  wait_for.

(** The constructor call [StreamlitExecutor(max_workers=, lambda_arn=)]. *)
Definition StreamlitExecutor (max_workers : nat) (lambda_arn : string)
    : Executor :=
  {| _max_workers := max_workers;
     _lambda_arn := lambda_arn;
     _work_queue := [] |}.

(** The payload loop of [run_lambdamap]. *)
Definition run_lambdamap_payloads (df : list DataRow) (horiz : Z)
    (freq : string) : list Payload :=
  let groups := groupby df false in
  map (fun '(_, dd) =>
         {| args := (dd, horiz, freq);
            kwargs := {| obj_metric := "smape_mean"; cv_stride := 2 |} |})
      groups.

(** [run_lambdamap], with the executor it built next to the futures it
    returns. *)
Definition run_lambdamap_executor (df : list DataRow) (horiz : Z)
    (freq : string) : list Future * Executor :=
  let payloads := run_lambdamap_payloads df horiz freq in
  let executor :=
    StreamlitExecutor (Nat.min 1000 (len payloads)) "LambdaMapFunction" in
  StreamlitExecutor_map executor run_cv_select payloads false.

Definition run_lambdamap (df : list DataRow) (horiz : Z) (freq : string)
    : list Future :=
  fst (run_lambdamap_executor df horiz freq).
End Runtime.

(** Modelled from the spec: the class [LambdaExecutor] (package
    [lambdamap]) that owns the worker pool is not under src/. The spec's
    Executor "owns a bounded pool of in-flight handles": a pool of
    [max_workers] workers, each running one accepted work item at a time.
    Work items are named by their position in the queue. *)
Record PoolState : Type := {
  queued : list nat;
  in_flight : list nat;
  resolved : list nat
}.

Definition pool_init (ex : Executor) : PoolState :=
  {| queued := seq 0 (len (_work_queue ex)); in_flight := []; resolved := [] |}.

Inductive pool_step (max_workers : nat) : PoolState -> PoolState -> Prop :=
| pool_start : forall i q r d,
    len r < max_workers ->
    pool_step max_workers
      {| queued := i :: q; in_flight := r; resolved := d |}
      {| queued := q; in_flight := r ++ [i]; resolved := d |}
| pool_finish : forall q r1 i r2 d,
    pool_step max_workers
      {| queued := q; in_flight := r1 ++ i :: r2; resolved := d |}
      {| queued := q; in_flight := r1 ++ r2; resolved := i :: d |}.

Inductive pool_reachable (ex : Executor) : PoolState -> Prop :=
| reach_init : pool_reachable ex (pool_init ex)
| reach_step : forall s s',
    pool_reachable ex s ->
    pool_step (_max_workers ex) s s' ->
    pool_reachable ex s'.

(* ================================================================= *)
(** ** display_progress *)

(** The progress bar [stqdm(desc=desc, total=...)]: its label, its total
    and the increments passed to [pbar.update], oldest first. *)
Record ProgressBar : Type := {
  desc : option string;
  total : nat;
  updates : list Z
}.

Definition stqdm (desc : option string) (total : nat) : ProgressBar :=
  {| desc := desc; total := total; updates := [] |}.

Definition update (pbar : ProgressBar) (diff : Z) : ProgressBar :=
  {| desc := desc pbar; total := total pbar;
     updates := updates pbar ++ [diff] |}.

(** [sum(f.done() for f in wait_for)] at poll [now]. *)
Definition count_done (now : nat) (wait_for : list Future) : Z :=
  sum (map (fun f => if done now f then 1%Z else 0%Z) wait_for).

(** What one run of [display_progress] did: the bar, and how many times
    the loop body ran (one [time.sleep(0.5)] each). *)
Record Progress : Type := {
  pbar_of : ProgressBar;
  iterations : nat
}.

(** The [while] loop; every count of finished futures is one poll later
    than the one before. [None] when [fuel] iterations did not reach the
    exit test. *)
Fixpoint display_progress_loop (fuel : nat) (wait_for : list Future)
    (now : nat) (pbar : ProgressBar) (prev_n_done n_done : Z) (iters : nat)
    : option (ProgressBar * Z * Z * nat) :=
  if (n_done =? Z.of_nat (len wait_for))%Z
  then Some (pbar, prev_n_done, n_done, iters)
  else
    match fuel with
    | O => None
    | S fuel' =>
        let diff := (n_done - prev_n_done)%Z in
        let pbar := update pbar diff in
        let prev_n_done := n_done in
        let n_done := count_done (S now) wait_for in
        display_progress_loop fuel' wait_for (S now) pbar
          prev_n_done n_done (S iters)
    end.

Definition display_progress (fuel : nat) (wait_for : list Future)
    (desc : option string) : option Progress :=
  let pbar := stqdm desc (len wait_for) in
  let prev_n_done := 0%Z in
  let n_done := count_done 0 wait_for in
  match display_progress_loop fuel wait_for 0 pbar prev_n_done n_done 0 with
  | None => None
  | Some (pbar, prev_n_done, n_done, iters) =>
      let diff := (n_done - prev_n_done)%Z in
      let pbar := update pbar diff in
      Some {| pbar_of := pbar; iterations := iters |}
  end.

(** The last poll at which a future of the batch is still running, plus
    one: fuel enough for the loop of [display_progress]. *)
Definition last_done_at (wait_for : list Future) : nat :=
  fold_right Nat.max 0 (map done_at wait_for).

(* ================================================================= *)
(** ** Session state and the aggregation *)

Inductive Freq : Type := Daily | Weekly | Monthly.

Definition FREQ_MAP (k : Freq) : string :=
  match k with
  | Daily => "D"
  | Weekly => "W-MON"
  | Monthly => "MS"
  end.

(** The analysis functions of package [sfs] are not under src/: what they
    return is kept as the call itself. *)
Inductive DemandClassification : Type :=
| make_demand_classification (df : list DataRow) (freq : string).

Inductive PerfSummary : Type :=
| make_perf_summary (df_results : list ResultRow).

(** A leaderboard row under its rank label; [None] is a row that pandas
    filled with NaN. *)
Definition Leaderboard : Type := list (Z * option TopRow).

(** The attributes of the session [state] that the aggregation reads and
    writes; [None] is Python's [None]. *)
Record SessionState : Type := {
  df : list DataRow;
  freq_out : Freq;
  df_results : option (list ResultRow);
  df_pred : option (list PredRow);
  df_demand_cln : option DemandClassification;
  perf_summary : option PerfSummary;
  df_hist : option (list PredRow);
  df_top : option Leaderboard
}.

(** Code that reads and assigns attributes of [state] and may raise. The
    assignments made before an exception stay in the state. *)
Definition M (A : Type) : Type := SessionState -> (Exception + A) * SessionState.

Definition ret {A} (a : A) : M A := fun st => (inr a, st).

Definition bind {A B} (m : M A) (k : A -> M B) : M B :=
  fun st =>
    match m st with
    | (inl exn, st') => (inl exn, st')
    | (inr a, st') => k a st'
    end.

Definition lift {A} (r : Exception + A) : M A := fun st => (r, st).

Definition get : M SessionState := fun st => (inr st, st).

Definition modify (f : SessionState -> SessionState) : M unit :=
  fun st => (inr tt, f st).

Notation "x <- m ;; k" := (bind m (fun x => k))
  (at level 61, m at next level, right associativity).
Notation "m ;;; k" := (bind m (fun _ => k))
  (at level 61, right associativity).

Definition set_df_results (v : list ResultRow) (st : SessionState) :=
  {| df := df st; freq_out := freq_out st; df_results := Some v;
     df_pred := df_pred st; df_demand_cln := df_demand_cln st;
     perf_summary := perf_summary st; df_hist := df_hist st;
     df_top := df_top st |}.

Definition set_df_pred (v : list PredRow) (st : SessionState) :=
  {| df := df st; freq_out := freq_out st; df_results := df_results st;
     df_pred := Some v; df_demand_cln := df_demand_cln st;
     perf_summary := perf_summary st; df_hist := df_hist st;
     df_top := df_top st |}.

Definition set_df_demand_cln (v : DemandClassification) (st : SessionState) :=
  {| df := df st; freq_out := freq_out st; df_results := df_results st;
     df_pred := df_pred st; df_demand_cln := Some v;
     perf_summary := perf_summary st; df_hist := df_hist st;
     df_top := df_top st |}.

Definition set_perf_summary (v : PerfSummary) (st : SessionState) :=
  {| df := df st; freq_out := freq_out st; df_results := df_results st;
     df_pred := df_pred st; df_demand_cln := df_demand_cln st;
     perf_summary := Some v; df_hist := df_hist st;
     df_top := df_top st |}.

Definition set_df_hist (v : list PredRow) (st : SessionState) :=
  {| df := df st; freq_out := freq_out st; df_results := df_results st;
     df_pred := df_pred st; df_demand_cln := df_demand_cln st;
     perf_summary := perf_summary st; df_hist := Some v;
     df_top := df_top st |}.

Definition set_df_top (v : Leaderboard) (st : SessionState) :=
  {| df := df st; freq_out := freq_out st; df_results := df_results st;
     df_pred := df_pred st; df_demand_cln := df_demand_cln st;
     perf_summary := perf_summary st; df_hist := df_hist st;
     df_top := Some v |}.

(** [pd.concat(frames)]: the rows of the frames, frame after frame; pandas
    raises on an empty list of frames. *)
Definition pd_concat {R} (frames : list (list R)) : Exception + list R :=
  match frames with
  | [] => inl (ValueError "No objects to concatenate")
  | _ :: _ => inr (List.concat frames)
  end.

(** [df.query("type == 'actual'")]. *)
Definition query_type_actual (df : list PredRow) : list PredRow :=
  filter (fun r => (p_type r =? "actual")%string) df.

(** [df.assign(_index=values).set_index("_index")]. Setting a column from
    an array checks its length against the frame's index, with one case
    apart in pandas: a frame whose index is empty takes the index of a
    non-empty array and gets one NaN row per label. *)
Definition assign_index (df : list TopRow) (values : list Z)
    : Exception + Leaderboard :=
  if (len df =? 0) && negb (len values =? 0)
  then inr (map (fun v => (v, None)) values)
  else if len values =? len df
  then inr (combine values (map Some df))
  else inl (ValueError "Length of values does not match length of index").

Definition n_top : nat := 10.

Definition make_dataframes (wait_for : list Future) (order : list nat)
    : M SessionState :=
  raw_results <- lift (results (as_completed wait_for order)) ;;
  let pred_lst := map fst raw_results in
  let results_lst := map snd raw_results in
  results_df <- lift (pd_concat results_lst) ;;
  modify (set_df_results results_df) ;;;
  pred_df <- lift (pd_concat pred_lst) ;;
  modify (set_df_pred pred_df) ;;;
  state <- get ;;
  modify (set_df_demand_cln
            (make_demand_classification (df state) (FREQ_MAP (freq_out state)))) ;;;
  modify (set_perf_summary (make_perf_summary results_df)) ;;;
  let hist := query_type_actual pred_df in
  modify (set_df_hist hist) ;;;
  let top :=
    head n_top (sort_values_demand_desc (agg_demand_sum (groupby hist true))) in
  top <- lift (assign_index top (arange_plus_1 n_top)) ;;
  modify (set_df_top top) ;;;
  state <- get ;;
  ret state.

(** The aggregation in the body of [if create_forecast_button:] of
    [panel_launch_forecast], from [raw_results] on; [wait_for] is what the
    imported [run_pipeline] returned. *)
Definition panel_launch_forecast (wait_for : list Future) (order : list nat)
    : M unit :=
  raw_results <- lift (results (as_completed wait_for order)) ;;
  let pred_lst := map fst raw_results in
  let results_lst := map snd raw_results in
  results_df <- lift (pd_concat results_lst) ;;
  modify (set_df_results results_df) ;;;
  pred_df <- lift (pd_concat pred_lst) ;;
  modify (set_df_pred pred_df) ;;;
  state <- get ;;
  modify (set_df_demand_cln
            (make_demand_classification (df state) (FREQ_MAP (freq_out state)))) ;;;
  modify (set_perf_summary (make_perf_summary results_df)) ;;;
  ret tt.

(* ================================================================= *)
(** ** Reading a batch *)

(** The predictions frame and the metrics frame of a handle; a failed
    handle has none. *)
Definition unit_pred (f : Future) : list PredRow :=
  match outcome f with
  | Returned out => fst out
  | Raised _ => []
  end.

Definition unit_metrics (f : Future) : list ResultRow :=
  match outcome f with
  | Returned out => snd out
  | Raised _ => []
  end.

(** The assignments [make_dataframes] makes before it builds the
    leaderboard, from the frames [raw] of the units. *)
Definition aggregated (raw : list UnitOutput) (st : SessionState)
    : SessionState :=
  let results_df := List.concat (map snd raw) in
  let pred_df := List.concat (map fst raw) in
  set_df_hist (query_type_actual pred_df)
    (set_perf_summary (make_perf_summary results_df)
       (set_df_demand_cln
          (make_demand_classification (df st) (FREQ_MAP (freq_out st)))
          (set_df_pred pred_df (set_df_results results_df st)))).

(** The order an insertion sort by [lt] leaves between two elements, when
    [prec] orders the elements as they came in: smaller first, and among
    elements that [lt] does not separate, the one that came first. *)
Definition sorted_before {A} (lt : A -> A -> bool) (prec : A -> A -> Prop)
    (a b : A) : Prop :=
  lt a b = true \/ (lt b a = false /\ prec a b).

Definition key_lt (a b : GroupKey) : Prop := key_compare a b = Lt.

(** Rank order of the leaderboard: larger cumulative demand first, and for
    equal cumulative demand the smaller group key first. *)
Definition ranked_before (a b : TopRow) : Prop :=
  (t_demand a > t_demand b)%Z
  \/ (t_demand a = t_demand b /\ key_lt (group_key a) (group_key b)).

(** The groups of the history with their cumulative demand, in rank order,
    before [head] cuts the list. *)
Definition ranking (hist : list PredRow) : list TopRow :=
  sort_values_demand_desc (agg_demand_sum (groupby hist true)).

(** The ten rows at most that receive the rank index. *)
Definition top_rows (hist : list PredRow) : list TopRow :=
  head n_top (sort_values_demand_desc (agg_demand_sum (groupby hist true))).

(* ================================================================= *)
(** ** The retry policy in the words of the specification *)



(* ================================================================= *)
(** ** Sample data *)

Definition sample_row (item : string) (t d : Z) : DataRow :=
  {| d_timestamp := t; d_channel := "web"%string; d_family := "toys"%string;
     d_item_id := item; d_demand := d |}.

(** Three rows, two groups; the group of ["kite"] is seen first. *)
Definition sample_dataset : list DataRow :=
  [sample_row "kite"%string 1 5; sample_row "ball"%string 1 7; sample_row "kite"%string 2 6].


(** A unit computation that returns an empty pair of frames. *)
Definition sample_cv_select : Callable :=
  fun _ _ => Returned ([], []).

(** A remote proxy that passes every call on. *)
Definition sample_LambdaFunction : Callable -> string -> Callable :=
  fun func _ => func.


Definition sample_pred (item : string) (t d : Z) (type : string) : PredRow :=
  {| p_timestamp := t; p_channel := "web"%string; p_family := "toys"%string;
     p_item_id := item; p_demand := d; p_type := type |}.

Definition sample_metrics (item : string) : ResultRow :=
  {| r_channel := "web"%string; r_family := "toys"%string; r_item_id := item;
     r_model_type := "naive"%string; r_scores := [12%Z] |}.

(** The output of one unit: two observed rows of [hist] units each, one
    forecast row, and one metrics row. *)
Definition sample_unit (item : string) (hist : Z) : UnitOutput :=
  ([sample_pred item 1 hist "actual"%string;
    sample_pred item 2 hist "actual"%string;
    sample_pred item 3 9 "fcast"%string],
   [sample_metrics item]).

Definition completed (out : UnitOutput) : Future :=
  {| done_at := 1; outcome := Returned out |}.

(** Ten item names, listed from the last in key order to the first. *)
Definition sample_items : list string :=
  ["j"; "i"; "h"; "g"; "f"; "e"; "d"; "c"; "b"; "a"]%string.

(** Ten completed units of equal cumulative demand, submitted in the order
    of [sample_items]. *)
Definition sample_batch : list Future :=
  map (fun item => completed (sample_unit item 5)) sample_items.

(** A batch of three units whose second unit failed. *)
Definition failing_batch : list Future :=
  [completed (sample_unit "a"%string 5);
   {| done_at := 1; outcome := Raised (UnitExecutionError "series too short"%string) |};
   completed (sample_unit "c"%string 5)].

(** A batch of one completed unit that returned forecast rows only. *)
Definition forecast_only_batch : list Future :=
  [completed ([sample_pred "a"%string 3 9 "fcast"%string],
              [sample_metrics "a"%string])].

Definition sample_state : SessionState :=
  {| df := sample_dataset; freq_out := Daily; df_results := None;
     df_pred := None; df_demand_cln := None; perf_summary := None;
     df_hist := None; df_top := None |}.

(* ================================================================= *)
(** ** Further helpers: unique values, payload frames *)

Section Unique.
Context {A : Type} (eqb : A -> A -> bool).

(** The values of [l] not in [seen], each once, in order of appearance. *)
Fixpoint unique_from (seen : list A) (l : list A) : list A :=
  match l with
  | [] => []
  | x :: l' =>
      if existsb (eqb x) seen then unique_from seen l'
      else x :: unique_from (seen ++ [x]) l'
  end.

(** [Series.unique()]: the distinct values in order of appearance. *)
Definition unique (l : list A) : list A := unique_from [] l.
End Unique.

(** The sub-frame [dd] in the [args] of a payload. *)
Definition payload_frame (p : Payload) : list DataRow := fst (fst (args p)).


(* ================================================================= *)
(** ** validate *)

(** A frame as uploaded, before it is parsed into the dataset: its column
    labels and its rows of raw cells. *)
Record UploadFrame : Type := {
  columns : list string;
  cells : list (list string)
}.

(** [col in df]: membership among the column labels. *)
Definition has_column (df : UploadFrame) (col : string) : bool :=
  existsb (String.eqb col) (columns df).

(** The dictionary [{"errors": ..., "warnings": ...}]. *)
Record Msgs : Type := {
  errors : list string;
  warnings : list string
}.

(** The f-string ["missing **{col}** column"]. *)
Definition missing_column_msg (col : string) : string :=
  ("missing **" ++ col ++ "** column")%string.

(** [validate]; the constant [EXP_COLS], imported from package [sfs], is
    its first argument. *)
Definition validate (EXP_COLS : list string) (df : UploadFrame)
    : Msgs * bool :=
  let err_msgs :=
    fold_left (fun errs col =>
                 if negb (has_column df col)
                 then errs ++ [missing_column_msg col]
                 else errs) EXP_COLS [] in
  let warn_msgs := [] in
  let msgs := {| errors := err_msgs; warnings := warn_msgs |} in
  let is_valid_file := len err_msgs =? 0 in
  (msgs, is_valid_file).

(* ================================================================= *)
(** ** Panels that read the aggregated tables *)

(** Exceptions raised by the panel code, next to those of [Exception]. *)
Inductive PyError : Type :=
| TypeError (msg : string)
| AttributeError (msg : string)
| IndexError (msg : string)
| NotImplementedError
| Other (exn : Exception).

(** Python's [sorted] on a list of distinct strings. *)
Definition sorted (l : list string) : list string :=
  insertion_sort String.ltb l.

(** [l.index(x)], counting from position [i]. *)
Fixpoint index_from (x : string) (l : list string) (i : nat) : option nat :=
  match l with
  | [] => None
  | y :: l' => if (y =? x)%string then Some i else index_from x l' (S i)
  end.

(** [l.index(v)] for a cell [v] of the leaderboard; [None] is NaN, which
    equals no string. The ValueError message quotes the value. *)
Definition list_index (v : option string) (l : list string) : PyError + nat :=
  match v with
  | None => inl (Other (ValueError "nan is not in list"))
  | Some x =>
      match index_from x l 0 with
      | Some i => inr i
      | None => inl (Other (ValueError ("'" ++ x ++ "' is not in list")%string))
      end
  end.

(** [df_top[col].iloc[0]]: the cell of the first row. *)
Definition iloc_0 (col : TopRow -> string) (df_top : Leaderboard)
    : PyError + option string :=
  match df_top with
  | [] => inl (IndexError "single positional indexer is out-of-bounds")
  | (_, row) :: _ => inr (option_map col row)
  end.

(** One [go.Scatter] trace: its name and its points. *)
Record Scatter : Type := {
  trace_name : string;
  trace_x : list Z;
  trace_y : list Z
}.

(** [df.query("type == 'fcast'")]. *)
Definition query_type_fcast (df : list PredRow) : list PredRow :=
  filter (fun r => (p_type r =? "fcast")%string) df.

(** The figure built from the rows selected for the chart. *)
Definition chart_of (df_plot : list PredRow) : list Scatter :=
  let y := map p_demand (query_type_actual df_plot) in
  let y_ts := map p_timestamp (query_type_actual df_plot) in
  let yp := map p_demand (query_type_fcast df_plot) in
  let yp_ts := map p_timestamp (query_type_fcast df_plot) in
  [ {| trace_name := "actual"; trace_x := y_ts; trace_y := y |};
    {| trace_name := "forecast"; trace_x := yp_ts; trace_y := yp |} ].

Definition none_not_subscriptable : PyError :=
  TypeError "'NoneType' object is not subscriptable".

Section Panels.
(** [st.selectbox(label, options, index=...)]: the option the user has
    selected; streamlit is not under src/. *)
Variable selectbox : string -> list string -> nat -> string.

(** [panel_visualization]: the figure it charts, [None] when it charts
    nothing. *)
Definition panel_visualization (state : SessionState)
    : PyError + option (list Scatter) :=
  match df_results state with
  | None => inl none_not_subscriptable
  | Some results_df =>
  let channel_vals := ""%string :: sorted (unique String.eqb (map r_channel results_df)) in
  let family_vals := ""%string :: sorted (unique String.eqb (map r_family results_df)) in
  let item_id_vals := ""%string :: sorted (unique String.eqb (map r_item_id results_df)) in
  match df_top state with
  | None => inl none_not_subscriptable
  | Some top_df =>
  match iloc_0 t_channel top_df with inl exn => inl exn | inr c0 =>
  match list_index c0 channel_vals with inl exn => inl exn | inr channel_index =>
  match iloc_0 t_family top_df with inl exn => inl exn | inr f0 =>
  match list_index f0 family_vals with inl exn => inl exn | inr family_index =>
  match iloc_0 t_item_id top_df with inl exn => inl exn | inr i0 =>
  match list_index i0 item_id_vals with inl exn => inl exn | inr item_id_index =>
  let channel_choice := selectbox "Channel" channel_vals channel_index in
  let family_choice := selectbox "Family" family_vals family_index in
  let item_id_choice := selectbox "Item ID" item_id_vals item_id_index in
  let results_mask :=
    make_mask results_df channel_choice family_choice item_id_choice in
  match df_pred state with
  | None => inl (TypeError "object of type 'NoneType' has no len()")
  | Some pred_df =>
  let pred_mask :=
    make_mask pred_df channel_choice family_choice item_id_choice in
  let df_plot := boolean_index pred_df pred_mask in
  if 0 <? len df_plot then inr (Some (chart_of df_plot)) else inr None
  end end end end end end end end end.
End Panels.


(** A [selectbox] on its first rendering: the option at the default
    index. *)
Definition default_selectbox : string -> list string -> nat -> string :=
  fun _ options index => nth index options ""%string.

(** The session state after [make_dataframes] drained [sample_batch]. *)
Definition sample_drained_state : SessionState :=
  snd (make_dataframes sample_batch (seq 0 10) sample_state).


(* ================================================================= *)
(** ** page_view_report *)

(** What [page_view_report] puts on the page: the counts of its summary,
    the leaderboard it tabulates and the figure it charts. *)
Record Report : Type := {
  num_series : nat;
  channels_shown : nat;
  families_shown : nat;
  items_shown : nat;
  top_shown : Leaderboard;
  chart_shown : option (list Scatter)
}.

(** [Stopped] is [st.stop()], which ends the run of the page. *)
Inductive PageOutcome : Type :=
| Stopped
| Rendered (report : Report).

Section Pages.
Variable selectbox : string -> list string -> nat -> string.

(** [page_view_report], up to the chart. Between the leaderboard and the
    filter, [_plot_demand_classification] subscripts [state.df_demand_cln];
    the values of the imported [make_perf_summary] and the plots made from
    them do not feed any step kept here. *)
Definition page_view_report (state : SessionState) : PyError + PageOutcome :=
  match df_results state, df_pred state with
  | None, _ => inr Stopped
  | _, None => inr Stopped
  | Some results_df, Some pred_df =>
  let hist := query_type_actual pred_df in
  let channel_vals := ""%string :: sorted (unique String.eqb (map r_channel results_df)) in
  let family_vals := ""%string :: sorted (unique String.eqb (map r_family results_df)) in
  let item_id_vals := ""%string :: sorted (unique String.eqb (map r_item_id results_df)) in
  let n_series := len (unique key_eqb (map group_key hist)) in
  let n_top := 10 in
  let top :=
    head n_top (sort_values_demand_desc (agg_demand_sum (groupby hist true))) in
  match assign_index top (arange_plus_1 n_top) with
  | inl exn => inl (Other exn)
  | inr top_df =>
  match df_demand_cln state with
  | None => inl none_not_subscriptable
  | Some _ =>
  match iloc_0 t_channel top_df with inl exn => inl exn | inr c0 =>
  match list_index c0 channel_vals with inl exn => inl exn | inr channel_index =>
  match iloc_0 t_family top_df with inl exn => inl exn | inr f0 =>
  match list_index f0 family_vals with inl exn => inl exn | inr family_index =>
  match iloc_0 t_item_id top_df with inl exn => inl exn | inr i0 =>
  match list_index i0 item_id_vals with inl exn => inl exn | inr item_id_index =>
  let channel_choice := selectbox "Channel" channel_vals channel_index in
  let family_choice := selectbox "Family" family_vals family_index in
  let item_id_choice := selectbox "Item ID" item_id_vals item_id_index in
  let results_mask :=
    page_view_report.make_mask results_df channel_choice family_choice
      item_id_choice in
  let pred_mask :=
    page_view_report.make_mask pred_df channel_choice family_choice
      item_id_choice in
  let df_plot := boolean_index pred_df pred_mask in
  inr (Rendered
         {| num_series := n_series;
            channels_shown := len channel_vals - 1;
            families_shown := len family_vals - 1;
            items_shown := len item_id_vals - 1;
            top_shown := top_df;
            chart_shown :=
              if 0 <? len df_plot then Some (chart_of df_plot) else None |})
  end end end end end end end end
  end.
End Pages.

(* ================================================================= *)
(** ** Downloads *)














(** The session state that the drain of three units leaves when the rank
    index raises: the tables are assigned, the leaderboard is not. *)
Definition sample_three_groups_state : SessionState :=
  snd (make_dataframes (firstn 3 sample_batch) (seq 0 3) sample_state).


(* ================================================================= *)
(** ** Launch of a forecast job (main script) *)

Section Launch.
Variable run_cv_select : Callable.
Variable LambdaFunction : Callable -> string -> Callable.
Variable finish_tick : nat -> nat.
(** [run_pipeline] and [resample] are imported from package [sfs]. *)
Variable run_pipeline : list DataRow -> string -> string -> Z -> list Future.
Variable resample : list DataRow -> string -> list DataRow.

(** The body of [if ... launch_button and state.backend:] of the main
    script; [backend], [freq_in] and [horiz] are [state.backend],
    [state.freq_in] and [state.horiz]. The result is [None] when
    [display_progress] did not return within [fuel] polls, otherwise what
    the progress bar did and the run of [make_dataframes]. *)
Definition launch_forecast (fuel : nat) (order : list nat)
    (backend : string) (freq_in : Freq) (horiz : Z) (state : SessionState)
    : PyError
      + option (Progress * ((Exception + SessionState) * SessionState)) :=
  let submitted : PyError + list Future :=
    if (backend =? "Local")%string then
      inr (run_pipeline (df state) (FREQ_MAP freq_in)
             (FREQ_MAP (freq_out state)) horiz)
    else if (backend =? "AWS Lambda")%string then
      let df2 := resample (df state) (FREQ_MAP (freq_out state)) in
      inr (run_lambdamap run_cv_select LambdaFunction finish_tick
             df2 horiz (FREQ_MAP (freq_out state)))
    else inl NotImplementedError in
  match submitted with
  | inl exn => inl exn
  | inr wait_for =>
      match display_progress fuel wait_for (Some "Generating forecast"%string) with
      | None => inr None
      | Some progress =>
          inr (Some (progress, make_dataframes wait_for order state))
      end
  end.
End Launch.

(** A remote proxy that answers every call with the rows of its payload
    as history and one metrics row for the payload's group. *)
Definition echo_LambdaFunction : Callable -> string -> Callable :=
  fun _ _ _ p =>
    let dd := fst (fst (args p)) in
    Returned
      (map (fun r => {| p_timestamp := d_timestamp r;
                        p_channel := d_channel r; p_family := d_family r;
                        p_item_id := d_item_id r; p_demand := d_demand r;
                        p_type := "actual" |}) dd,
       match dd with
       | [] => []
       | r :: _ => [ {| r_channel := d_channel r; r_family := d_family r;
                        r_item_id := d_item_id r; r_model_type := "naive";
                        r_scores := [] |} ]
       end).




(* ================================================================= *)
(** * Properties *)

Lemma key_eqb_spec (a b : GroupKey) : reflect (a = b) (key_eqb a b).
Proof.
  destruct a as [[c1 f1] i1], b as [[c2 f2] i2]; unfold key_eqb.
  destruct (String.eqb_spec c1 c2), (String.eqb_spec f1 f2),
    (String.eqb_spec i1 i2); simpl; constructor; congruence.
Qed.

Lemma key_eqb_refl (a : GroupKey) : key_eqb a a = true.
Proof. destruct (key_eqb_spec a a); congruence. Qed.

(* ----------------------------------------------------------------- *)
(** ** Row filter *)

Lemma mask_and_ones (col : list bool) :
  mask_and (repeat true (len col)) col = col.
Proof.
  unfold mask_and; induction col as [|b col IH]; simpl; [reflexivity|].
  now rewrite IH.
Qed.

Lemma mask_and_map {R} (f g : R -> bool) (df : list R) :
  mask_and (map f df) (map g df) = map (fun r => f r && g r) df.
Proof.
  unfold mask_and; induction df as [|r df IH]; simpl; [reflexivity|].
  now rewrite IH.
Qed.

Lemma negb_ones (n : nat) : map negb (repeat true n) = repeat false n.
Proof. induction n as [|n IH]; simpl; [reflexivity | now rewrite IH]. Qed.

Lemma boolean_index_zeros {R} (df : list R) :
  boolean_index df (repeat false (len df)) = [].
Proof. induction df as [|r df IH]; simpl; auto. Qed.

Lemma boolean_index_map {R} (f : R -> bool) (df : list R) :
  boolean_index df (map f df) = filter f df.
Proof.
  induction df as [|r df IH]; simpl; [reflexivity|].
  destruct (f r); now rewrite IH.
Qed.

Lemma make_mask_closed_form {R} `{GroupCols R}
    (df : list R) (channel family item_id : string) :
  make_mask df channel family item_id =
  if ((channel =? "") || (family =? "") || (item_id =? ""))%string
  then repeat false (len df)
  else map (row_matches channel family item_id) df.
Proof.
  unfold make_mask.
  destruct ((channel =? "") || (family =? "") || (item_id =? ""))%string.
  - apply negb_ones.
  - rewrite <- (length_map (fun r => (col_channel r =? channel)%string) df)
      at 1.
    rewrite mask_and_ones, !mask_and_map.
    reflexivity.
Qed.

(** C10. Whatever the frame and the three keys: when one of the keys is the
    empty string the mask is all-false and selects no row; otherwise the
    mask is true exactly at the rows whose channel, family and item_id all
    equal the keys, and indexing the frame by it keeps exactly those rows.
    The copy nested in [page_view_report] computes the same mask. *)
Theorem make_mask_selects :
  forall (R : Type) (cols : GroupCols R) (df : list R)
         (channel family item_id : string),
    let any_empty :=
      ((channel =? "") || (family =? "") || (item_id =? ""))%string in
    make_mask df channel family item_id =
      (if any_empty then repeat false (len df)
       else map (row_matches channel family item_id) df)
    /\ boolean_index df (make_mask df channel family item_id) =
      (if any_empty then []
       else filter (row_matches channel family item_id) df)
    /\ page_view_report.make_mask df channel family item_id =
       make_mask df channel family item_id.
Proof.
  intros R cols df channel family item_id any_empty.
  split; [apply make_mask_closed_form|].
  split; [|reflexivity].
  rewrite make_mask_closed_form. fold any_empty.
  destruct any_empty.
  - apply boolean_index_zeros.
  - apply boolean_index_map.
Qed.

(* ----------------------------------------------------------------- *)
(** ** Progress monitor *)

Lemma sum_from (l : list Z) (a : Z) :
  fold_left Z.add l a = (a + sum l)%Z.
Proof.
  unfold sum. revert a. induction l as [|x l IH]; intros a; simpl; [lia|].
  rewrite IH, (IH x). lia.
Qed.

Lemma sum_cons (x : Z) (l : list Z) : sum (x :: l) = (x + sum l)%Z.
Proof. unfold sum at 1. simpl. apply sum_from. Qed.

Lemma sum_snoc (l : list Z) (x : Z) : sum (l ++ [x]) = (sum l + x)%Z.
Proof. unfold sum. now rewrite fold_left_app. Qed.

Lemma count_done_all (now : nat) (wait_for : list Future) :
  Forall (fun f => done_at f <= now) wait_for ->
  count_done now wait_for = Z.of_nat (len wait_for).
Proof.
  unfold count_done. induction 1 as [|f fs Hf _ IH]; [reflexivity|].
  cbn [map List.length]. rewrite sum_cons, IH. unfold done.
  destruct (Nat.leb_spec (done_at f) now); lia.
Qed.

Lemma last_done_at_bound (wait_for : list Future) :
  Forall (fun f => done_at f <= last_done_at wait_for) wait_for.
Proof.
  unfold last_done_at. induction wait_for as [|f fs IH]; simpl; constructor.
  - lia.
  - eapply Forall_impl; [|exact IH]. simpl. intros g Hg. lia.
Qed.

Lemma display_progress_loop_returns (wait_for : list Future) (fuel : nat) :
  forall (now : nat) (pbar : ProgressBar) (prev_n_done : Z) (iters : nat),
    Forall (fun f => done_at f <= now + fuel) wait_for ->
    sum (updates pbar) = prev_n_done ->
    exists pbar' prev' iters',
      display_progress_loop fuel wait_for now pbar prev_n_done
        (count_done now wait_for) iters
      = Some (pbar', prev', Z.of_nat (len wait_for), iters')
      /\ sum (updates pbar') = prev'
      /\ desc pbar' = desc pbar /\ total pbar' = total pbar.
Proof.
  induction fuel as [|fuel IH]; intros now pbar prev_n_done iters Hdone Hsum.
  - rewrite Nat.add_0_r in Hdone. rewrite (count_done_all _ _ Hdone).
    simpl. rewrite Z.eqb_refl. exists pbar, prev_n_done, iters. auto.
  - simpl.
    destruct (Z.eqb_spec (count_done now wait_for) (Z.of_nat (len wait_for)))
      as [Heq|Hne].
    + rewrite Heq. exists pbar, prev_n_done, iters. auto.
    + destruct (IH (S now)
                  (update pbar (count_done now wait_for - prev_n_done)%Z)
                  (count_done now wait_for) (S iters))
        as (pbar' & prev' & iters' & Hrun & Hsum' & Hd & Ht).
      * eapply Forall_impl; [|exact Hdone]. simpl. intros f Hf. lia.
      * simpl. rewrite sum_snoc, Hsum. lia.
      * exists pbar', prev', iters'. auto.
Qed.

(** Given fuel for every poll until the last future is done,
    [display_progress] returns, and the increments it passed to the bar
    add up to the number of futures. *)
Lemma display_progress_returns (wait_for : list Future) (desc : option string) :
  exists out : Progress,
    display_progress (last_done_at wait_for) wait_for desc = Some out
    /\ sum (updates (pbar_of out)) = Z.of_nat (len wait_for)
    /\ total (pbar_of out) = len wait_for.
Proof.
  unfold display_progress.
  destruct (display_progress_loop_returns wait_for (last_done_at wait_for) 0
              (stqdm desc (len wait_for)) 0%Z 0)
    as (pbar' & prev' & iters' & Hrun & Hsum & _ & Ht).
  - apply last_done_at_bound.
  - reflexivity.
  - rewrite Hrun. eexists. split; [reflexivity|]. simpl.
    rewrite sum_snoc, Hsum, Ht. split; [lia | reflexivity].
Qed.

(** C6 (as the code has it). On an empty batch [display_progress] returns
    whatever the fuel, the body of its polling loop never runs, and the
    progress bar is updated exactly once, by the statement after the loop,
    with an increment of 0. *)
Theorem display_progress_empty :
  forall (fuel : nat) (desc : option string),
    display_progress fuel [] desc =
    Some {| pbar_of := {| desc := desc; total := 0; updates := [0%Z] |};
            iterations := 0 |}.
Proof. intros [|fuel] desc; reflexivity. Qed.

(** C6 (as stated) fails: on the empty batch the bar does receive a call. *)
Lemma display_progress_empty_calls_update :
  ~ (exists out : Progress,
        display_progress 0 [] None = Some out
        /\ iterations out = 0
        /\ updates (pbar_of out) = []).
Proof.
  intros [out [Hrun [_ Hupd]]].
  vm_compute in Hrun.
  injection Hrun as <-. discriminate Hupd.
Qed.

(* ----------------------------------------------------------------- *)
(** ** Partition into work units *)

Section Grouping.
Context {R : Type} `{GroupCols R}.

Lemma group_append_keys (k : GroupKey) (r : R) (g : list (GroupKey * list R)) :
  map fst (group_append k r g) =
  if in_dec key_dec k (map fst g) then map fst g else map fst g ++ [k].
Proof.
  induction g as [|[k' rows] g IH]; simpl; [reflexivity|].
  destruct (key_eqb_spec k k') as [->|Hne]; simpl.
  - destruct (key_dec k' k'); [reflexivity | congruence].
  - rewrite IH. destruct (key_dec k' k); [congruence|].
    destruct (in_dec key_dec k (map fst g)); reflexivity.
Qed.

Lemma group_append_In (k : GroupKey) (r : R) (g : list (GroupKey * list R))
      (k' : GroupKey) (rows' : list R) :
  NoDup (map fst g) ->
  In (k', rows') (group_append k r g) ->
  (k' <> k /\ In (k', rows') g)
  \/ (k' = k /\ exists rows, In (k, rows) g /\ rows' = rows ++ [r])
  \/ (k' = k /\ ~ In k (map fst g) /\ rows' = [r]).
Proof.
  induction g as [|[k0 rows0] g IH]; simpl; intros Hnd Hin.
  - destruct Hin as [Heq|[]]. injection Heq as <- <-. right; right; auto.
  - inversion Hnd as [|? ? Hnotin Hnd']; subst.
    destruct (key_eqb_spec k k0) as [->|Hne].
    + destruct Hin as [Heq|Hin].
      * injection Heq as <- <-. right; left. split; [reflexivity|].
        exists rows0; auto.
      * left. split; [|right; exact Hin].
        intros ->. apply Hnotin. apply (in_map fst) in Hin. exact Hin.
    + destruct Hin as [Heq|Hin].
      * injection Heq as <- <-. left. split; [congruence | left; reflexivity].
      * destruct (IH Hnd' Hin) as [[Hk Hg]|[[Hk [rows [Hg Hr]]]|[Hk [Hg Hr]]]].
        -- left; auto.
        -- right; left. split; [exact Hk|]. exists rows; auto.
        -- right; right. split; [exact Hk|]. split; [|exact Hr].
           intros [Heq|Hin']; [congruence | auto].
Qed.

Lemma rows_of_key_snoc (l : list R) (r : R) (k : GroupKey) :
  rows_of_key (l ++ [r]) k =
  if key_eqb (group_key r) k then rows_of_key l k ++ [r] else rows_of_key l k.
Proof.
  unfold rows_of_key. rewrite filter_app; simpl.
  destruct (key_eqb (group_key r) k); [reflexivity | apply app_nil_r].
Qed.

Lemma rows_of_key_absent (l : list R) (k : GroupKey) :
  ~ In k (map group_key l) -> rows_of_key l k = [].
Proof.
  induction l as [|x l IH]; simpl; intros Hnot; [reflexivity|].
  destruct (key_eqb_spec (group_key x) k) as [Heq|Hne].
  - exfalso; apply Hnot; left; exact Heq.
  - apply IH. intros Hin; apply Hnot; right; exact Hin.
Qed.

Lemma groups_of_snoc (g : list (GroupKey * list R)) (l : list R) (r : R) :
  groups_of g l -> groups_of (group_append (group_key r) r g) (l ++ [r]).
Proof.
  intros (Hnd & Hkeys & Hrows). repeat split.
  - rewrite group_append_keys.
    destruct (in_dec key_dec (group_key r) (map fst g)) as [Hin|Hnin];
      [exact Hnd|].
    apply NoDup_app; [exact Hnd | repeat constructor; intros [] | ].
    intros k Hk [<-|[]]; contradiction.
  - rewrite group_append_keys, map_app, in_app_iff; simpl.
    destruct (in_dec key_dec (group_key r) (map fst g)) as [Hin|Hnin].
    + intros Hk; left; apply Hkeys; exact Hk.
    + rewrite in_app_iff; simpl. intros [Hk|Hk]; [left; apply Hkeys|right]; auto.
  - rewrite group_append_keys, map_app, in_app_iff; simpl.
    destruct (in_dec key_dec (group_key r) (map fst g)) as [Hin|Hnin].
    + intros [Hk|[<-|[]]]; [apply Hkeys; exact Hk | exact Hin].
    + rewrite in_app_iff; simpl. intros [Hk|Hk]; [left; apply Hkeys|right]; auto.
  - intros k rows Hin. rewrite rows_of_key_snoc.
    destruct (group_append_In _ _ _ _ _ Hnd Hin)
      as [[Hk Hg]|[[-> [rows0 [Hg ->]]]|[-> [Hg ->]]]].
    + destruct (key_eqb_spec (group_key r) k); [congruence | auto].
    + rewrite key_eqb_refl. f_equal; auto.
    + rewrite key_eqb_refl, rows_of_key_absent; [reflexivity|].
      intros Hin'; apply Hg, Hkeys, Hin'.
Qed.

Lemma groupby_first_seen_groups_of (l : list R) : groups_of (groupby l false) l.
Proof.
  unfold groupby. induction l as [|r l IH] using rev_ind.
  - simpl. repeat split; simpl; try tauto; constructor.
  - rewrite fold_left_app. simpl. apply groups_of_snoc, IH.
Qed.

Lemma groups_of_length (g : list (GroupKey * list R)) (l : list R) :
  groups_of g l -> len g = len (nodup key_dec (map group_key l)).
Proof.
  intros (Hnd & Hkeys & _).
  rewrite <- (length_map fst g).
  apply Permutation_length, NoDup_Permutation;
    [exact Hnd | apply NoDup_nodup |].
  intros k. rewrite nodup_In. apply Hkeys.
Qed.
End Grouping.

(** C3. For every dataset the payload loop of [run_lambdamap] builds one
    payload per distinct (channel, family, item_id) triple present: the
    number of payloads is the number of distinct triples, and the payloads
    are, for a duplicate-free list of exactly the triples present, the rows
    of each triple in dataset order, so that no triple has two payloads. *)
Theorem run_lambdamap_one_payload_per_group :
  forall (df : list DataRow) (horiz : Z) (freq : string),
    let payloads := run_lambdamap_payloads df horiz freq in
    len payloads = len (nodup key_dec (map group_key df))
    /\ exists keys : list GroupKey,
         NoDup keys
         /\ (forall k, In k keys <-> In k (map group_key df))
         /\ map args payloads =
            map (fun k => (rows_of_key df k, horiz, freq)) keys.
Proof.
  intros df horiz freq payloads.
  pose proof (groupby_first_seen_groups_of df) as Hg.
  split.
  - unfold payloads, run_lambdamap_payloads. rewrite length_map.
    apply groups_of_length, Hg.
  - exists (map fst (groupby df false)).
    destruct Hg as (Hnd & Hkeys & Hrows).
    split; [exact Hnd|]. split; [exact Hkeys|].
    unfold payloads, run_lambdamap_payloads. rewrite !map_map.
    apply map_ext_in. intros [k dd] Hin; simpl.
    now rewrite (Hrows k dd Hin).
Qed.

(* ----------------------------------------------------------------- *)
(** ** Executor *)

Section RuntimeFacts.
Variable LambdaFunction : Callable -> string -> Callable.
Variable finish_tick : nat -> nat.

Lemma submit_all_spec (f : Callable) (payloads : list Payload) :
  forall ex : Executor,
    let out := submit_all finish_tick ex f payloads in
    _max_workers (snd out) = _max_workers ex
    /\ _lambda_arn (snd out) = _lambda_arn ex
    /\ _work_queue (snd out) = _work_queue ex ++ payloads
    /\ len (fst out) = len payloads
    /\ map outcome (fst out) = map (f 0) payloads.
Proof.
  induction payloads as [|p payloads IH]; intros ex; simpl.
  - rewrite app_nil_r. auto.
  - specialize (IH (snd (submit finish_tick ex f p))). simpl in IH.
    destruct (submit_all finish_tick _ f payloads) as [futs ex2] eqn:E.
    simpl in *. destruct IH as (Hw & Ha & Hq & Hl & Ho).
    rewrite Hw, Ha, Hq, Hl, Ho, <- app_assoc. auto.
Qed.
End RuntimeFacts.

Lemma pool_in_flight_bound (ex : Executor) (s : PoolState) :
  pool_reachable ex s -> len (in_flight s) <= _max_workers ex.
Proof.
  induction 1 as [|s s' _ IH Hstep]; simpl; [lia|].
  destruct Hstep; simpl in *.
  - rewrite length_app; simpl; lia.
  - rewrite length_app in *; simpl in *; lia.
Qed.

(** C4. The executor that [run_lambdamap] builds has a pool of
    min(1000, number of payloads) workers; in every state its pool can
    reach, the work items in flight number at most 1000 and at most the
    number of payloads. *)
Theorem run_lambdamap_in_flight_bound :
  forall (run_cv_select : Callable)
         (LambdaFunction : Callable -> string -> Callable)
         (finish_tick : nat -> nat)
         (df : list DataRow) (horiz : Z) (freq : string) (s : PoolState),
    let executor :=
      snd (run_lambdamap_executor run_cv_select LambdaFunction finish_tick
             df horiz freq) in
    let n := len (run_lambdamap_payloads df horiz freq) in
    pool_reachable executor s ->
    _max_workers executor = Nat.min 1000 n
    /\ len (in_flight s) <= 1000
    /\ len (in_flight s) <= n.
Proof.
  intros run_cv_select LambdaFunction finish_tick df horiz freq s executor n
         Hreach.
  assert (Hmw : _max_workers executor = Nat.min 1000 n).
  { unfold executor, run_lambdamap_executor, StreamlitExecutor_map.
    destruct (submit_all_spec finish_tick
                (LambdaFunction run_cv_select "LambdaMapFunction"%string)
                (run_lambdamap_payloads df horiz freq)
                (StreamlitExecutor
                   (Nat.min 1000 (len (run_lambdamap_payloads df horiz freq)))
                   "LambdaMapFunction"%string)) as (Hw & _).
    exact Hw. }
  apply pool_in_flight_bound in Hreach.
  rewrite Hmw in Hreach. repeat split; [exact Hmw | lia | lia].
Qed.

Lemma run_lambdamap_in_flight_bound_witness :
  let executor :=
    snd (run_lambdamap_executor sample_cv_select sample_LambdaFunction
           (fun i => i) sample_dataset 4%Z "D"%string) in
  let s := {| queued := [1]; in_flight := [0]; resolved := [] |} in
  pool_reachable executor s
  /\ (_max_workers executor =
        Nat.min 1000 (len (run_lambdamap_payloads sample_dataset 4%Z "D"%string))
      /\ len (in_flight s) <= 1000
      /\ len (in_flight s) <= len (run_lambdamap_payloads sample_dataset 4%Z "D"%string)).
Proof.
  intros executor s.
  assert (Hreach : pool_reachable executor s).
  { apply reach_step with (s := pool_init executor); [apply reach_init|].
    vm_compute. apply (pool_start 2 0 [1] [] []). simpl; lia. }
  split; [exact Hreach|].
  exact (run_lambdamap_in_flight_bound sample_cv_select sample_LambdaFunction
           (fun i => i) sample_dataset 4%Z "D"%string s Hreach).
Defined.



(* ----------------------------------------------------------------- *)
(** ** Draining: order of the futures and failures *)

Lemma as_completed_shift (pre l : list Future) :
  as_completed (pre ++ l) (seq (len pre) (len l)) = l.
Proof.
  unfold as_completed. revert pre.
  induction l as [|f l IH]; intros pre; simpl; [reflexivity|].
  rewrite nth_error_app2, Nat.sub_diag by lia; simpl.
  f_equal.
  specialize (IH (pre ++ [f])).
  rewrite <- app_assoc, length_app, Nat.add_1_r in IH.
  exact IH.
Qed.

Lemma as_completed_submission_order (wait_for : list Future) :
  as_completed wait_for (seq 0 (len wait_for)) = wait_for.
Proof. exact (as_completed_shift [] wait_for). Qed.

Lemma as_completed_permutation (wait_for : list Future) (order : list nat) :
  Permutation order (seq 0 (len wait_for)) ->
  Permutation (as_completed wait_for order) wait_for.
Proof.
  intros Hperm.
  rewrite <- (as_completed_submission_order wait_for) at 2.
  unfold as_completed. apply Permutation_flat_map, Hperm.
Qed.

Lemma results_completed (fs : list Future) :
  Forall (fun f => is_completed f = true) fs ->
  exists raw, results fs = inr raw
              /\ map outcome fs = map Returned raw
              /\ map fst raw = map unit_pred fs
              /\ map snd raw = map unit_metrics fs.
Proof.
  induction 1 as [|f fs Hf _ (raw & Hres & Hout & Hp & Hm)]; simpl.
  - exists []; auto.
  - unfold is_completed in Hf. unfold result, unit_pred, unit_metrics.
    destruct (outcome f) as [out|exn]; [|discriminate].
    exists (out :: raw). rewrite Hres; simpl. rewrite Hout, Hp, Hm. auto.
Qed.

Lemma results_inr (fs : list Future) (raw : list UnitOutput) :
  results fs = inr raw ->
  Forall (fun f => is_completed f = true) fs /\ len raw = len fs.
Proof.
  revert raw. induction fs as [|f fs IH]; simpl; intros raw Hres.
  - injection Hres as <-. auto.
  - unfold result in Hres. destruct (outcome f) as [out|exn] eqn:Ho;
      [|discriminate].
    destruct (results fs) as [exn|raw'] eqn:Hr; [discriminate|].
    injection Hres as <-. destruct (IH raw' eq_refl) as [Hall Hlen].
    split; [|simpl; now rewrite Hlen].
    constructor; [unfold is_completed; now rewrite Ho | exact Hall].
Qed.

Lemma results_first_raised (before after : list Future) (f : Future)
      (exn : Exception) :
  Forall (fun f => is_completed f = true) before ->
  outcome f = Raised exn ->
  results (before ++ f :: after) = inl exn.
Proof.
  induction 1 as [|g before Hg _ IH]; intros Hf; simpl.
  - unfold result. now rewrite Hf.
  - unfold is_completed in Hg. unfold result.
    destruct (outcome g); [|discriminate]. now rewrite (IH Hf).
Qed.

Lemma first_failed (fs : list Future) :
  Exists (fun f => is_completed f = false) fs ->
  exists before f after exn,
    fs = before ++ f :: after
    /\ Forall (fun f => is_completed f = true) before
    /\ outcome f = Raised exn.
Proof.
  induction fs as [|g fs IH]; intros Hex; [inversion Hex|].
  destruct (is_completed g) eqn:Hg.
  - assert (Hex' : Exists (fun f => is_completed f = false) fs).
    { inversion Hex as [? ? Hhd|? ? Htl]; subst; [congruence | exact Htl]. }
    destruct (IH Hex') as (before & f & after & exn & -> & Hall & Hf).
    exists (g :: before), f, after, exn. repeat split; auto.
  - unfold is_completed in Hg.
    destruct (outcome g) as [out|exn] eqn:Ho; [discriminate|].
    exists [], g, fs, exn. repeat split; auto.
Qed.

(** [make_dataframes], one step at a time. *)
Lemma make_dataframes_run (wait_for : list Future) (order : list nat)
      (st : SessionState) :
  make_dataframes wait_for order st =
  match results (as_completed wait_for order) with
  | inl exn => (inl exn, st)
  | inr [] => (inl (ValueError "No objects to concatenate"), st)
  | inr raw =>
      let st1 := aggregated raw st in
      match assign_index (top_rows (query_type_actual (List.concat (map fst raw))))
                         (arange_plus_1 n_top) with
      | inl exn => (inl exn, st1)
      | inr top => (inr (set_df_top top st1), set_df_top top st1)
      end
  end.
Proof.
  unfold make_dataframes, bind, lift, modify, get, ret.
  destruct (results (as_completed wait_for order)) as [exn|[|out raw]];
    reflexivity.
Qed.

Lemma panel_launch_forecast_run (wait_for : list Future) (order : list nat)
      (st : SessionState) :
  panel_launch_forecast wait_for order st =
  match results (as_completed wait_for order) with
  | inl exn => (inl exn, st)
  | inr [] => (inl (ValueError "No objects to concatenate"), st)
  | inr raw =>
      (inr tt,
       set_perf_summary (make_perf_summary (List.concat (map snd raw)))
         (set_df_demand_cln
            (make_demand_classification (df st) (FREQ_MAP (freq_out st)))
            (set_df_pred (List.concat (map fst raw))
               (set_df_results (List.concat (map snd raw)) st))))
  end.
Proof.
  unfold panel_launch_forecast, bind, lift, modify, get, ret.
  destruct (results (as_completed wait_for order)) as [exn|[|out raw]];
    reflexivity.
Qed.

Lemma yielded_completed (wait_for : list Future) (order : list nat) :
  Permutation order (seq 0 (len wait_for)) ->
  Forall (fun f => is_completed f = true) wait_for ->
  exists raw,
    results (as_completed wait_for order) = inr raw
    /\ len raw = len wait_for
    /\ map fst raw = map unit_pred (as_completed wait_for order)
    /\ map snd raw = map unit_metrics (as_completed wait_for order).
Proof.
  intros Hperm Hall.
  pose proof (as_completed_permutation wait_for order Hperm) as Hy.
  assert (Hall' : Forall (fun f => is_completed f = true)
                         (as_completed wait_for order)).
  { apply (Permutation_Forall (Permutation_sym Hy)), Hall. }
  destruct (results_completed _ Hall') as (raw & Hres & _ & Hp & Hm).
  exists raw. repeat split; auto.
  destruct (results_inr _ _ Hres) as [_ ->].
  apply Permutation_length, Hy.
Qed.




(** C2 (as the code has it). For every batch with a handle that resolved
    to Failed, and whatever the yield order, draining raises the exception
    of the first failed handle that [as_completed] yields: no output is
    returned, the session state is left as it was, and nothing records the
    failed unit apart from the exception itself. *)
Theorem failed_handle_aborts_drain :
  forall (wait_for : list Future) (order : list nat) (st : SessionState),
    Permutation order (seq 0 (len wait_for)) ->
    Exists (fun f => is_completed f = false) wait_for ->
    exists (before : list Future) (f : Future) (after : list Future)
           (exn : Exception),
      as_completed wait_for order = before ++ f :: after
      /\ Forall (fun g => is_completed g = true) before
      /\ In f wait_for
      /\ outcome f = Raised exn
      /\ make_dataframes wait_for order st = (inl exn, st)
      /\ panel_launch_forecast wait_for order st = (inl exn, st).
Proof.
  intros wait_for order st Hperm Hex.
  pose proof (as_completed_permutation wait_for order Hperm) as Hy.
  assert (Hex' : Exists (fun f => is_completed f = false)
                        (as_completed wait_for order)).
  { apply (Permutation_Exists (Permutation_sym Hy)), Hex. }
  destruct (first_failed _ Hex') as (before & f & after & exn & Heq & Hb & Hf).
  exists before, f, after, exn.
  split; [exact Heq|]. split; [exact Hb|].
  split.
  { apply (Permutation_in f Hy). rewrite Heq. apply in_elt. }
  split; [exact Hf|].
  rewrite make_dataframes_run, panel_launch_forecast_run, Heq.
  rewrite (results_first_raised before after f exn Hb Hf). auto.
Qed.

Lemma failed_handle_aborts_drain_witness :
  Permutation (seq 0 3) (seq 0 (len failing_batch))
  /\ Exists (fun f => is_completed f = false) failing_batch
  /\ exists (before : list Future) (f : Future) (after : list Future)
            (exn : Exception),
       as_completed failing_batch (seq 0 3) = before ++ f :: after
       /\ Forall (fun g => is_completed g = true) before
       /\ In f failing_batch
       /\ outcome f = Raised exn
       /\ make_dataframes failing_batch (seq 0 3) sample_state
          = (inl exn, sample_state)
       /\ panel_launch_forecast failing_batch (seq 0 3) sample_state
          = (inl exn, sample_state).
Proof.
  assert (Hperm : Permutation (seq 0 3) (seq 0 (len failing_batch))).
  { apply Permutation_refl. }
  assert (Hex : Exists (fun f => is_completed f = false) failing_batch).
  { apply Exists_cons_tl, Exists_cons_hd. reflexivity. }
  split; [exact Hperm|]. split; [exact Hex|].
  exact (failed_handle_aborts_drain failing_batch (seq 0 3) sample_state
           Hperm Hex).
Defined.

(** C2 (as stated) fails: a batch of three units whose second unit failed
    drains to that unit's exception, not to an output built from the two
    units that completed. *)
Lemma failed_unit_leaves_no_output :
  Exists (fun f => is_completed f = false) failing_batch
  /\ make_dataframes failing_batch (seq 0 3) sample_state =
     (inl (UnitExecutionError "series too short"), sample_state)
  /\ ~ (exists out : SessionState,
           fst (make_dataframes failing_batch (seq 0 3) sample_state)
           = inr out).
Proof.
  split; [apply Exists_cons_tl, Exists_cons_hd; reflexivity|].
  split; [reflexivity|].
  intros [out Hout]. vm_compute in Hout. discriminate Hout.
Qed.

(* ----------------------------------------------------------------- *)
(** ** Metrics table *)






(* ----------------------------------------------------------------- *)
(** ** Insertion sort: permutation, order and stability *)

Section InsertionSortFacts.
Context {A : Type} (lt : A -> A -> bool).

Lemma insert_permutation (x : A) (l : list A) :
  Permutation (insert lt x l) (x :: l).
Proof.
  induction l as [|y l IH]; simpl; [apply Permutation_refl|].
  destruct (lt x y); [apply Permutation_refl|].
  apply perm_trans with (y :: x :: l); [now apply perm_skip | apply perm_swap].
Qed.

Lemma fold_insert_permutation (l acc : list A) :
  Permutation (fold_left (fun acc x => insert lt x acc) l acc) (acc ++ l).
Proof.
  revert acc. induction l as [|x l IH]; intros acc; simpl.
  - rewrite app_nil_r. apply Permutation_refl.
  - eapply perm_trans; [apply IH|].
    eapply perm_trans;
      [apply Permutation_app_tail, insert_permutation|].
    simpl. apply Permutation_middle.
Qed.

Lemma insertion_sort_permutation (l : list A) :
  Permutation (insertion_sort lt l) l.
Proof. apply (fold_insert_permutation l []). Qed.

Hypothesis lt_asym : forall a b, lt a b = true -> lt b a = false.
Hypothesis lt_le_trans :
  forall a b c, lt a b = true -> lt c b = false -> lt a c = true.

Variable prec : A -> A -> Prop.

Lemma insert_sorted (x : A) (l : list A) :
  StronglySorted (sorted_before lt prec) l ->
  (forall y, In y l -> prec y x) ->
  StronglySorted (sorted_before lt prec) (insert lt x l).
Proof.
  induction l as [|y l IH]; simpl; intros Hs Hprec.
  - repeat constructor.
  - apply StronglySorted_inv in Hs. destruct Hs as [Hs Hy].
    destruct (lt x y) eqn:Hxy.
    + constructor; [constructor; assumption|].
      constructor; [left; exact Hxy|].
      rewrite Forall_forall in Hy |- *. intros z Hz. left.
      apply (lt_le_trans x y z Hxy).
      destruct (Hy z Hz) as [Hlt|[Hnlt _]]; [apply lt_asym, Hlt | exact Hnlt].
    + constructor; [apply IH; [exact Hs | intros z Hz; apply Hprec; now right]|].
      apply (Permutation_Forall (Permutation_sym (insert_permutation x l))).
      constructor; [|exact Hy].
      right. split; [exact Hxy | apply Hprec; now left].
Qed.

Lemma fold_insert_sorted (rest : list A) :
  forall acc : list A,
    StronglySorted (sorted_before lt prec) acc ->
    StronglySorted prec rest ->
    (forall y x, In y acc -> In x rest -> prec y x) ->
    StronglySorted (sorted_before lt prec)
                   (fold_left (fun acc x => insert lt x acc) rest acc).
Proof.
  induction rest as [|x rest IH]; intros acc Hacc Hrest Hcross; simpl;
    [exact Hacc|].
  apply StronglySorted_inv in Hrest. destruct Hrest as [Hrest Hx].
  apply IH; [|exact Hrest|].
  - apply insert_sorted; [exact Hacc|].
    intros y Hy. apply Hcross; [exact Hy | now left].
  - intros y x' Hy Hx'.
    apply (Permutation_in _ (insert_permutation x acc)) in Hy.
    destruct Hy as [<-|Hy].
    + rewrite Forall_forall in Hx. auto.
    + apply Hcross; [exact Hy | now right].
Qed.

Lemma insertion_sort_stable (l : list A) :
  StronglySorted prec l ->
  StronglySorted (sorted_before lt prec) (insertion_sort lt l).
Proof.
  intros Hl. apply fold_insert_sorted; [constructor | exact Hl |].
  intros y x [].
Qed.
End InsertionSortFacts.

Section StronglySortedFacts.
Context {A : Type}.

Lemma StronglySorted_weaken (R R' : A -> A -> Prop) (l : list A) :
  (forall a b, In a l -> In b l -> R a b -> R' a b) ->
  StronglySorted R l -> StronglySorted R' l.
Proof.
  intros Himp Hs. induction Hs as [|a l Hs IH Ha]; constructor.
  - apply IH. intros x y Hx Hy. apply Himp; now right.
  - rewrite Forall_forall in Ha |- *. intros b Hb.
    apply Himp; [now left | now right | auto].
Qed.

Lemma StronglySorted_snoc (R : A -> A -> Prop) (l : list A) (x : A) :
  StronglySorted R l -> Forall (fun a => R a x) l ->
  StronglySorted R (l ++ [x]).
Proof.
  induction 1 as [|a l Hs IH Ha]; intros Hx; simpl.
  - repeat constructor.
  - inversion Hx as [|? ? Hax Hlx]; subst.
    constructor; [apply IH, Hlx|].
    apply Forall_app. split; [exact Ha | repeat constructor; exact Hax].
Qed.

Lemma StronglySorted_rev (R : A -> A -> Prop) (l : list A) :
  StronglySorted R l -> StronglySorted (fun a b => R b a) (rev l).
Proof.
  induction 1 as [|a l Hs IH Ha]; simpl; [constructor|].
  apply StronglySorted_snoc; [exact IH|].
  rewrite Forall_forall in Ha |- *. intros b Hb.
  apply Ha. now apply in_rev.
Qed.

Lemma StronglySorted_map {B} (f : A -> B) (R : B -> B -> Prop) (l : list A) :
  StronglySorted (fun a b => R (f a) (f b)) l -> StronglySorted R (map f l).
Proof.
  induction 1 as [|a l Hs IH Ha]; simpl; constructor; [exact IH|].
  rewrite Forall_forall in Ha |- *. intros b Hb.
  apply in_map_iff in Hb. destruct Hb as (x & <- & Hx). auto.
Qed.

Lemma StronglySorted_firstn (R : A -> A -> Prop) (n : nat) (l : list A) :
  StronglySorted R l -> StronglySorted R (firstn n l).
Proof.
  intros Hs. revert n. induction Hs as [|a l Hs IH Ha]; intros [|n]; simpl;
    try constructor; [apply IH|].
  rewrite Forall_forall in Ha |- *. intros b Hb.
  apply Ha. rewrite <- (firstn_skipn n l). apply in_or_app. now left.
Qed.

Lemma StronglySorted_split (R : A -> A -> Prop) (n : nat) (l : list A) :
  StronglySorted R l ->
  forall a b, In a (firstn n l) -> In b (skipn n l) -> R a b.
Proof.
  intros Hs. revert n. induction Hs as [|x l Hs IH Hx]; intros [|n] a b;
    simpl; try tauto.
  intros [<-|Ha] Hb.
  - rewrite Forall_forall in Hx. apply Hx.
    rewrite <- (firstn_skipn n l). apply in_or_app. now right.
  - apply (IH n); assumption.
Qed.
End StronglySortedFacts.

(* ----------------------------------------------------------------- *)
(** ** Order of group keys *)

Lemma string_compare_refl (s : string) : String.compare s s = Eq.
Proof. now apply (OrderedTypeEx.String_as_OT.cmp_eq s s). Qed.

Lemma string_compare_lt_trans (a b c : string) :
  String.compare a b = Lt -> String.compare b c = Lt ->
  String.compare a c = Lt.
Proof.
  intros Hab Hbc.
  apply OrderedTypeEx.String_as_OT.cmp_lt.
  apply OrderedTypeEx.String_as_OT.lt_trans with b;
    now apply OrderedTypeEx.String_as_OT.cmp_lt.
Qed.

Lemma key_compare_eq (a b : GroupKey) : key_compare a b = Eq <-> a = b.
Proof.
  destruct a as [[a1 a2] a3], b as [[b1 b2] b3]; simpl.
  split.
  - destruct (String.compare a1 b1) eqn:E1; try discriminate.
    destruct (String.compare a2 b2) eqn:E2; try discriminate.
    intros E3.
    apply String.compare_eq_iff in E1, E2, E3. congruence.
  - intros [= -> -> ->]. now rewrite !string_compare_refl.
Qed.

Lemma key_compare_antisym (a b : GroupKey) :
  key_compare a b = CompOpp (key_compare b a).
Proof.
  destruct a as [[a1 a2] a3], b as [[b1 b2] b3]; simpl.
  rewrite (String.compare_antisym b1 a1), (String.compare_antisym b2 a2),
    (String.compare_antisym b3 a3).
  destruct (String.compare a1 b1), (String.compare a2 b2),
    (String.compare a3 b3); reflexivity.
Qed.

Lemma key_lt_trans (a b c : GroupKey) : key_lt a b -> key_lt b c -> key_lt a c.
Proof.
  unfold key_lt.
  destruct a as [[a1 a2] a3], b as [[b1 b2] b3], c as [[c1 c2] c3]; simpl.
  destruct (String.compare a1 b1) eqn:Eab1; try discriminate;
    destruct (String.compare b1 c1) eqn:Ebc1; try discriminate;
    try (apply String.compare_eq_iff in Eab1; subst a1);
    try (apply String.compare_eq_iff in Ebc1; subst b1);
    try rewrite string_compare_refl;
    try rewrite Eab1; try rewrite Ebc1;
    try (rewrite (string_compare_lt_trans _ _ _ Eab1 Ebc1); reflexivity);
    try reflexivity.
  destruct (String.compare a2 b2) eqn:Eab2; try discriminate;
    destruct (String.compare b2 c2) eqn:Ebc2; try discriminate;
    try (apply String.compare_eq_iff in Eab2; subst a2);
    try (apply String.compare_eq_iff in Ebc2; subst b2);
    try rewrite string_compare_refl;
    try rewrite Eab2; try rewrite Ebc2;
    try (rewrite (string_compare_lt_trans _ _ _ Eab2 Ebc2); reflexivity);
    try reflexivity.
  apply string_compare_lt_trans.
Qed.

Lemma key_ltb_lt (a b : GroupKey) : key_ltb a b = true <-> key_lt a b.
Proof.
  unfold key_ltb, key_lt. destruct (key_compare a b); split; congruence.
Qed.

Lemma key_ltb_asym (a b : GroupKey) : key_ltb a b = true -> key_ltb b a = false.
Proof.
  unfold key_ltb. rewrite (key_compare_antisym b a).
  destruct (key_compare a b); simpl; congruence.
Qed.

Lemma key_ltb_le_trans (a b c : GroupKey) :
  key_ltb a b = true -> key_ltb c b = false -> key_ltb a c = true.
Proof.
  intros Hab Hcb. apply key_ltb_lt. apply key_ltb_lt in Hab.
  unfold key_ltb in Hcb.
  destruct (key_compare c b) eqn:E; try discriminate.
  - apply key_compare_eq in E. now subst c.
  - apply key_lt_trans with b; [exact Hab|].
    unfold key_lt. rewrite key_compare_antisym, E. reflexivity.
Qed.

Lemma key_not_ltb_neq (a b : GroupKey) :
  key_ltb b a = false -> a <> b -> key_lt a b.
Proof.
  unfold key_ltb, key_lt. intros Hba Hne.
  rewrite key_compare_antisym.
  destruct (key_compare b a) eqn:E; try discriminate; [|reflexivity].
  apply key_compare_eq in E. congruence.
Qed.

(* ----------------------------------------------------------------- *)
(** ** Sorted grouping and the ranking *)

Section SortedGrouping.
Context {R : Type} `{GroupCols R}.

Lemma groups_of_permutation (g g' : list (GroupKey * list R)) (l : list R) :
  Permutation g g' -> groups_of g l -> groups_of g' l.
Proof.
  intros Hperm (Hnd & Hkeys & Hrows). repeat split.
  - apply (Permutation_NoDup (Permutation_map fst Hperm) Hnd).
  - intros Hk. apply Hkeys.
    apply (Permutation_in _ (Permutation_sym (Permutation_map fst Hperm)) Hk).
  - intros Hk. apply (Permutation_in _ (Permutation_map fst Hperm)).
    now apply Hkeys.
  - intros k rows Hin. apply Hrows.
    apply (Permutation_in _ (Permutation_sym Hperm) Hin).
Qed.

Lemma groupby_sorted_permutation (l : list R) :
  Permutation (groupby l true) (groupby l false).
Proof. unfold groupby. apply insertion_sort_permutation. Qed.

Lemma groupby_sorted_groups_of (l : list R) : groups_of (groupby l true) l.
Proof.
  apply groups_of_permutation with (groupby l false).
  - apply Permutation_sym, groupby_sorted_permutation.
  - apply groupby_first_seen_groups_of.
Qed.

Lemma NoDup_sorted_strict (g : list (GroupKey * list R)) :
  NoDup (map fst g) ->
  StronglySorted (fun a b => key_ltb (fst b) (fst a) = false) g ->
  StronglySorted (fun a b => key_lt (fst a) (fst b)) g.
Proof.
  intros Hnd Hs. induction Hs as [|a g Hs IH Ha]; constructor.
  - apply IH. now inversion Hnd.
  - inversion Hnd as [|? ? Hnotin _]; subst.
    rewrite Forall_forall in Ha |- *. intros b Hb.
    apply key_not_ltb_neq; [apply Ha, Hb|].
    intros Heq. apply Hnotin. rewrite Heq. now apply in_map.
Qed.

Lemma groupby_sorted_ascending (l : list R) :
  StronglySorted (fun a b => key_lt (fst a) (fst b)) (groupby l true).
Proof.
  apply NoDup_sorted_strict; [apply groupby_sorted_groups_of|].
  unfold groupby.
  eapply StronglySorted_weaken;
    [|apply (insertion_sort_stable
               (fun a b : GroupKey * list R => key_ltb (fst a) (fst b))
               (fun a b => key_ltb_asym (fst a) (fst b))
               (fun a b c => key_ltb_le_trans (fst a) (fst b) (fst c))
               (fun _ _ => True))].
  - intros a b _ _ [Hlt|[Hnlt _]]; [apply key_ltb_asym, Hlt | exact Hnlt].
  - generalize (fold_left (fun g r => group_append (group_key r) r g) l []).
    intros g. induction g as [|a g IH]; constructor; [exact IH|].
    apply Forall_forall. auto.
Qed.
End SortedGrouping.

Lemma agg_demand_sum_keys (g : list (GroupKey * list PredRow)) :
  map group_key (agg_demand_sum g) = map fst g.
Proof.
  unfold agg_demand_sum. rewrite map_map. apply map_ext.
  intros [[[c f] i] rows]. reflexivity.
Qed.

Lemma agg_demand_sum_In (g : list (GroupKey * list PredRow)) (r : TopRow) :
  In r (agg_demand_sum g) ->
  exists rows, In (group_key r, rows) g /\ t_demand r = sum (map p_demand rows).
Proof.
  unfold agg_demand_sum. intros Hin. apply in_map_iff in Hin.
  destruct Hin as ([[[c f] i] rows] & <- & Hin). exists rows. auto.
Qed.

Lemma agg_demand_sum_ascending (hist : list PredRow) :
  StronglySorted (fun a b => key_lt (group_key a) (group_key b))
                 (agg_demand_sum (groupby hist true)).
Proof.
  pose proof (groupby_sorted_ascending hist) as Hs.
  unfold agg_demand_sum.
  apply (StronglySorted_map _ (fun a b => key_lt (group_key a) (group_key b))).
  eapply StronglySorted_weaken; [|exact Hs].
  intros [[[c f] i] rows] [[[c' f'] i'] rows'] _ _ Hlt. exact Hlt.
Qed.

Lemma sort_values_demand_desc_permutation (l : list TopRow) :
  Permutation (sort_values_demand_desc l) l.
Proof.
  unfold sort_values_demand_desc.
  eapply perm_trans; [apply Permutation_sym, Permutation_rev|].
  eapply perm_trans; [apply insertion_sort_permutation|].
  apply Permutation_sym, Permutation_rev.
Qed.

Lemma sort_values_demand_desc_ranked (l : list TopRow) :
  StronglySorted (fun a b => key_lt (group_key a) (group_key b)) l ->
  StronglySorted ranked_before (sort_values_demand_desc l).
Proof.
  intros Hl. unfold sort_values_demand_desc.
  apply StronglySorted_rev in Hl.
  pose proof (insertion_sort_stable
                (fun a b : TopRow => (t_demand a <? t_demand b)%Z)) as Hsort.
  specialize (Hsort ltac:(intros a b; simpl; lia) ltac:(intros a b c; simpl; lia)
                    _ _ Hl).
  apply StronglySorted_rev in Hsort.
  eapply StronglySorted_weaken; [|exact Hsort].
  intros a b _ _ [Hlt|[Hnlt Hkey]]; unfold ranked_before; simpl in *.
  - left. lia.
  - destruct (Z.eq_dec (t_demand a) (t_demand b)) as [Heq|Hne];
      [right; auto | left; lia].
Qed.

Lemma ranking_permutation (hist : list PredRow) :
  Permutation (ranking hist) (agg_demand_sum (groupby hist true)).
Proof. apply sort_values_demand_desc_permutation. Qed.

Lemma ranking_keys (hist : list PredRow) :
  Permutation (map group_key (ranking hist)) (map fst (groupby hist false)).
Proof.
  eapply perm_trans; [apply Permutation_map, ranking_permutation|].
  rewrite agg_demand_sum_keys.
  apply Permutation_map, groupby_sorted_permutation.
Qed.

Lemma ranking_length (hist : list PredRow) :
  len (ranking hist) = len (nodup key_dec (map group_key hist)).
Proof.
  rewrite <- (length_map group_key), (Permutation_length (ranking_keys hist)).
  rewrite length_map. apply groups_of_length, groupby_first_seen_groups_of.
Qed.

Lemma ranking_nonempty (hist : list PredRow) : hist <> [] -> ranking hist <> [].
Proof.
  intros Hne Hnil. destruct hist as [|r hist]; [congruence|].
  destruct (groupby_first_seen_groups_of (r :: hist)) as (_ & Hkeys & _).
  assert (Hin : In (group_key r) (map group_key (ranking (r :: hist)))).
  { apply (Permutation_in _ (Permutation_sym (ranking_keys (r :: hist)))).
    apply Hkeys. now left. }
  rewrite Hnil in Hin. exact Hin.
Qed.

Lemma arange_plus_1_length (n : nat) : len (arange_plus_1 n) = n.
Proof. unfold arange_plus_1. now rewrite length_map, length_seq. Qed.

Lemma top_rows_length (hist : list PredRow) :
  len (top_rows hist) = Nat.min 10 (len (nodup key_dec (map group_key hist))).
Proof.
  unfold top_rows, head, n_top.
  rewrite length_firstn. fold (ranking hist). now rewrite ranking_length.
Qed.

Lemma assign_index_empty (values : list Z) :
  values <> [] -> assign_index [] values = inr (map (fun v => (v, None)) values).
Proof. destruct values; [congruence | reflexivity]. Qed.

Lemma assign_index_mismatch (rows : list TopRow) (values : list Z) :
  rows <> [] -> len values <> len rows ->
  assign_index rows values =
  inl (ValueError "Length of values does not match length of index").
Proof.
  intros Hne Hlen. unfold assign_index.
  destruct rows as [|r rows]; [congruence|]. cbn [List.length Nat.eqb andb].
  destruct (Nat.eqb_spec (len values) (S (len rows))); [contradiction|].
  reflexivity.
Qed.

Lemma assign_index_match (rows : list TopRow) (values : list Z) :
  rows <> [] -> len values = len rows ->
  assign_index rows values = inr (combine values (map Some rows)).
Proof.
  intros Hne Hlen. unfold assign_index.
  destruct rows as [|r rows]; [congruence|]. cbn [List.length Nat.eqb andb].
  destruct (Nat.eqb_spec (len values) (S (len rows))); [|contradiction].
  reflexivity.
Qed.

Lemma make_dataframes_drained (wait_for : list Future) (order : list nat)
      (st : SessionState) (raw : list UnitOutput) :
  results (as_completed wait_for order) = inr raw ->
  raw <> [] ->
  make_dataframes wait_for order st =
  match assign_index (top_rows (query_type_actual (List.concat (map fst raw))))
                     (arange_plus_1 n_top) with
  | inl exn => (inl exn, aggregated raw st)
  | inr top => (inr (set_df_top top (aggregated raw st)),
                set_df_top top (aggregated raw st))
  end.
Proof.
  intros Hres Hne. rewrite make_dataframes_run, Hres.
  destruct raw; [congruence | reflexivity].
Qed.

(* ----------------------------------------------------------------- *)
(** ** Leaderboard *)

(** C9 (as the code has it). Once every unit of a non-empty batch has
    returned, the outcome of [make_dataframes] is decided by the number of
    distinct groupKeys among the 'actual' rows of the predictions table:
    with 1 to 9 of them the assignment of the ten ranks raises (the tables
    are assigned by then, the leaderboard is not); with 10 or more it
    returns a leaderboard of ten ranked groups; with none the ten ranks
    become the index of an all-NaN leaderboard and nothing is raised. *)
Theorem leaderboard_index_needs_ten_groups :
  forall (wait_for : list Future) (order : list nat) (st : SessionState)
         (raw : list UnitOutput),
    results (as_completed wait_for order) = inr raw ->
    raw <> [] ->
    let hist := query_type_actual (List.concat (map fst raw)) in
    let n_groups := len (nodup key_dec (map group_key hist)) in
    let run := make_dataframes wait_for order st in
    (0 < n_groups < 10 ->
     fst run = inl (ValueError "Length of values does not match length of index")
     /\ df_top (snd run) = df_top st
     /\ df_pred (snd run) = Some (List.concat (map fst raw)))
    /\ (10 <= n_groups ->
        exists st' : SessionState,
          fst run = inr st'
          /\ len (top_rows hist) = 10
          /\ df_top st' =
             Some (combine (arange_plus_1 10) (map Some (top_rows hist))))
    /\ (n_groups = 0 ->
        exists st' : SessionState,
          fst run = inr st'
          /\ df_top st' = Some (map (fun v => (v, None)) (arange_plus_1 10))).
Proof.
  intros wait_for order st raw Hres Hne hist n_groups run.
  pose proof (top_rows_length hist) as Hlen. fold n_groups in Hlen.
  unfold run. rewrite (make_dataframes_drained _ _ st raw Hres Hne).
  fold hist. split; [|split].
  - intros Hn.
    rewrite assign_index_mismatch.
    + simpl. auto.
    + intros Hnil. apply (f_equal (@List.length _)) in Hnil.
      cbn [List.length] in Hnil. lia.
    + rewrite arange_plus_1_length, Hlen. unfold n_top. lia.
  - intros Hn.
    assert (Hten : len (top_rows hist) = 10) by lia.
    rewrite assign_index_match.
    + eexists. split; [reflexivity|]. split; [exact Hten | reflexivity].
    + intros Hnil. rewrite Hnil in Hten. discriminate.
    + now rewrite arange_plus_1_length, Hten.
  - intros Hn.
    assert (Hnil : top_rows hist = []).
    { destruct (top_rows hist); [reflexivity | cbn [List.length] in Hlen; lia]. }
    rewrite Hnil, assign_index_empty by discriminate.
    eexists. split; reflexivity.
Qed.

Lemma leaderboard_index_needs_ten_groups_witness :
  let wait_for := firstn 3 sample_batch in
  let raw := map (fun item => sample_unit item 5) ["j"; "i"; "h"]%string in
  let hist := query_type_actual (List.concat (map fst raw)) in
  let n_groups := len (nodup key_dec (map group_key hist)) in
  let run := make_dataframes wait_for (seq 0 3) sample_state in
  results (as_completed wait_for (seq 0 3)) = inr raw
  /\ raw <> []
  /\ 0 < n_groups < 10
  /\ fst run = inl (ValueError "Length of values does not match length of index")
  /\ df_top (snd run) = df_top sample_state
  /\ df_pred (snd run) = Some (List.concat (map fst raw)).
Proof.
  intros wait_for raw hist n_groups run.
  assert (Hres : results (as_completed wait_for (seq 0 3)) = inr raw)
    by reflexivity.
  assert (Hne : raw <> []) by discriminate.
  assert (Hn : 0 < n_groups < 10) by (vm_compute; lia).
  repeat (split; [assumption|]).
  exact (proj1 (leaderboard_index_needs_ten_groups wait_for (seq 0 3)
                  sample_state raw Hres Hne) Hn).
Defined.

(** C9 (as stated) fails: a batch of one unit that returned forecast rows
    only has a single groupKey in its drained results, yet the derived
    summaries are built without an error. *)
Lemma one_group_without_history_drains :
  let run := make_dataframes forecast_only_batch [0] sample_state in
  exists (st' : SessionState) (pred : list PredRow),
    fst run = inr st'
    /\ df_pred st' = Some pred
    /\ len (nodup key_dec (map group_key pred)) = 1
    /\ df_top st' = Some (map (fun v => (v, None)) (arange_plus_1 10)).
Proof.
  intros run. eexists. eexists.
  split; [reflexivity|]. split; [reflexivity|]. split; reflexivity.
Qed.

Lemma ranked_before_ge (a b : TopRow) :
  ranked_before a b -> (t_demand a >= t_demand b)%Z.
Proof. intros [H|[H _]]; lia. Qed.

(** C8 (as the code has it). For every batch that [make_dataframes]
    drained with at least one 'actual' row: the leaderboard is ranks 1 to
    10 over the first ten rows of a ranking that holds every group of the
    history exactly once with its cumulative (summed) actual demand, in
    descending order of that demand, so no group left out has a larger
    cumulative demand than a group listed. When there are at most 16
    groups, groups of equal cumulative demand are ranked in ascending
    order of their groupKey. *)
Theorem leaderboard_ranks_by_cumulative_demand :
  forall (wait_for : list Future) (order : list nat)
         (st st' : SessionState) (hist : list PredRow),
    fst (make_dataframes wait_for order st) = inr st' ->
    df_hist st' = Some hist ->
    hist <> [] ->
    let ranked := ranking hist in
    df_top st' = Some (combine (arange_plus_1 10) (map Some (firstn 10 ranked)))
    /\ len (firstn 10 ranked) = 10
    /\ NoDup (map group_key ranked)
    /\ (forall k, In k (map group_key ranked) <-> In k (map group_key hist))
    /\ (forall r, In r ranked ->
          t_demand r = sum (map p_demand (rows_of_key hist (group_key r))))
    /\ StronglySorted (fun a b => (t_demand a >= t_demand b)%Z) ranked
    /\ (forall a b, In a (firstn 10 ranked) -> In b (skipn 10 ranked) ->
          (t_demand a >= t_demand b)%Z)
    /\ (len ranked <= 16 -> StronglySorted ranked_before ranked).
Proof.
  intros wait_for order st st' hist Hrun Hhist Hne ranked.
  assert (Hraw : exists raw,
             results (as_completed wait_for order) = inr raw /\ raw <> []).
  { rewrite make_dataframes_run in Hrun.
    destruct (results (as_completed wait_for order)) as [exn|[|out raw]];
      try discriminate.
    eexists; split; [reflexivity | discriminate]. }
  destruct Hraw as (raw & Hres & Hrawne).
  rewrite (make_dataframes_drained _ _ st raw Hres Hrawne) in Hrun.
  destruct (assign_index _ _) as [exn|top] eqn:Hassign; [discriminate|].
  simpl in Hrun. injection Hrun as <-.
  simpl in Hhist. injection Hhist as Hhist. rewrite Hhist in Hassign.
  assert (Hranked : StronglySorted ranked_before ranked).
  { apply sort_values_demand_desc_ranked, agg_demand_sum_ascending. }
  assert (Hdesc : StronglySorted (fun a b => (t_demand a >= t_demand b)%Z)
                                 ranked).
  { eapply StronglySorted_weaken; [|exact Hranked].
    intros a b _ _. apply ranked_before_ge. }
  assert (Htop : top_rows hist <> []).
  { unfold top_rows, head, n_top. fold (ranking hist).
    pose proof (ranking_nonempty hist Hne) as Hr.
    destruct (ranking hist); [congruence | discriminate]. }
  assert (Hlen : len (top_rows hist) = 10).
  { destruct (Nat.eq_dec (len (arange_plus_1 n_top)) (len (top_rows hist)))
      as [Heq|Hneq].
    - now rewrite arange_plus_1_length in Heq.
    - rewrite (assign_index_mismatch _ _ Htop Hneq) in Hassign. discriminate. }
  rewrite assign_index_match in Hassign
    by (auto; now rewrite arange_plus_1_length).
  injection Hassign as <-.
  pose proof (groupby_first_seen_groups_of hist) as (Hnd & Hkeys & _).
  pose proof (ranking_keys hist) as Hperm. fold ranked in Hperm.
  split; [reflexivity|]. split; [exact Hlen|].
  split. { apply (Permutation_NoDup (Permutation_sym Hperm) Hnd). }
  split.
  { intros k. rewrite <- Hkeys. split; intros Hk.
    - apply (Permutation_in _ Hperm Hk).
    - apply (Permutation_in _ (Permutation_sym Hperm) Hk). }
  split.
  { intros r Hr.
    apply (Permutation_in _ (ranking_permutation hist)) in Hr.
    apply agg_demand_sum_In in Hr. destruct Hr as (rows & Hin & ->).
    destruct (groupby_sorted_groups_of hist) as (_ & _ & Hrows).
    now rewrite (Hrows _ _ Hin). }
  split; [exact Hdesc|].
  split; [|intros _; exact Hranked].
  intros a b Ha Hb. exact (StronglySorted_split _ 10 ranked Hdesc a b Ha Hb).
Qed.

Lemma leaderboard_ranks_by_cumulative_demand_witness :
  let st' := snd (make_dataframes sample_batch (seq 0 10) sample_state) in
  let hist := query_type_actual (List.concat (map unit_pred sample_batch)) in
  let ranked := ranking hist in
  fst (make_dataframes sample_batch (seq 0 10) sample_state) = inr st'
  /\ df_hist st' = Some hist
  /\ hist <> []
  /\ df_top st' = Some (combine (arange_plus_1 10) (map Some (firstn 10 ranked)))
  /\ len (firstn 10 ranked) = 10
  /\ NoDup (map group_key ranked)
  /\ (forall k, In k (map group_key ranked) <-> In k (map group_key hist))
  /\ (forall r, In r ranked ->
        t_demand r = sum (map p_demand (rows_of_key hist (group_key r))))
  /\ StronglySorted (fun a b => (t_demand a >= t_demand b)%Z) ranked
  /\ (forall a b, In a (firstn 10 ranked) -> In b (skipn 10 ranked) ->
        (t_demand a >= t_demand b)%Z)
  /\ (len ranked <= 16 -> StronglySorted ranked_before ranked).
Proof.
  intros st' hist ranked.
  assert (Hrun : fst (make_dataframes sample_batch (seq 0 10) sample_state)
                 = inr st') by (vm_compute; reflexivity).
  assert (Hhist : df_hist st' = Some hist) by (vm_compute; reflexivity).
  assert (Hne : hist <> []) by (vm_compute; discriminate).
  repeat (split; [assumption|]).
  exact (leaderboard_ranks_by_cumulative_demand sample_batch (seq 0 10)
           sample_state st' hist Hrun Hhist Hne).
Defined.

(** C8 (as stated) fails: ten groups of equal cumulative demand whose keys
    are first seen in the order j, i, ..., a are ranked a, b, ..., j. *)
Lemma leaderboard_ties_not_in_first_seen_order :
  exists (st' : SessionState) (hist : list PredRow) (top : Leaderboard),
    fst (make_dataframes sample_batch (seq 0 10) sample_state) = inr st'
    /\ df_hist st' = Some hist
    /\ df_top st' = Some top
    /\ Forall (fun row => option_map t_demand (snd row) = Some 10%Z) top
    /\ map (fun k => snd k) (map fst (groupby hist false)) = sample_items
    /\ map (fun row => option_map t_item_id (snd row)) top
       = map Some (rev sample_items)
    /\ map (fun row => option_map group_key (snd row)) top
       <> map Some (map fst (groupby hist false)).
Proof.
  eexists. eexists. eexists.
  split; [vm_compute; reflexivity|].
  split; [vm_compute; reflexivity|].
  split; [vm_compute; reflexivity|].
  split; [vm_compute; repeat constructor|].
  split; [vm_compute; reflexivity|].
  split; [vm_compute; reflexivity|].
  vm_compute. discriminate.
Qed.

(* ================================================================= *)
(** * Further properties *)

(* ----------------------------------------------------------------- *)
(** ** Partition: nothing lost, nothing empty, first-seen order *)

Section GroupingMore.
Context {R : Type} `{GroupCols R}.

Lemma group_append_rows (k : GroupKey) (r : R) (g : list (GroupKey * list R)) :
  Permutation (List.concat (map snd (group_append k r g)))
              (r :: List.concat (map snd g)).
Proof.
  induction g as [|[k' rows] g IH]; simpl.
  - apply Permutation_refl.
  - destruct (key_eqb k k'); simpl.
    + rewrite <- app_assoc. apply Permutation_sym.
      apply (Permutation_middle rows (List.concat (map snd g)) r).
    + eapply perm_trans; [apply Permutation_app_head, IH|].
      apply Permutation_sym, Permutation_middle.
Qed.

Lemma fold_group_append_rows (l : list R) :
  forall g : list (GroupKey * list R),
    Permutation
      (List.concat
         (map snd (fold_left (fun g r => group_append (group_key r) r g) l g)))
      (List.concat (map snd g) ++ l).
Proof.
  induction l as [|r l IH]; intros g; simpl.
  - rewrite app_nil_r. apply Permutation_refl.
  - eapply perm_trans; [apply IH|].
    eapply perm_trans; [apply Permutation_app_tail, group_append_rows|].
    simpl. apply Permutation_middle.
Qed.

Lemma groupby_rows (l : list R) (sort : bool) :
  Permutation (List.concat (map snd (groupby l sort))) l.
Proof.
  assert (Hfirst : Permutation (List.concat (map snd (groupby l false))) l).
  { unfold groupby. apply (fold_group_append_rows l []). }
  destruct sort; [|exact Hfirst].
  eapply perm_trans; [|exact Hfirst].
  rewrite <- !flat_map_concat_map.
  apply Permutation_flat_map, groupby_sorted_permutation.
Qed.

Lemma rows_of_key_present (l : list R) (k : GroupKey) :
  In k (map group_key l) -> rows_of_key l k <> [].
Proof.
  intros Hin Hnil. apply in_map_iff in Hin. destruct Hin as (r & Hk & Hr).
  assert (Hin : In r (rows_of_key l k)).
  { apply filter_In. split; [exact Hr|]. rewrite Hk. apply key_eqb_refl. }
  rewrite Hnil in Hin. exact Hin.
Qed.

Lemma rows_of_key_same_key (l : list R) (k : GroupKey) :
  Forall (fun r => group_key r = k) (rows_of_key l k).
Proof.
  apply Forall_forall. intros r Hr. apply filter_In in Hr.
  destruct Hr as [_ Hk]. now destruct (key_eqb_spec (group_key r) k).
Qed.

Lemma existsb_key_In (k : GroupKey) (seen : list GroupKey) :
  existsb (key_eqb k) seen = true <-> In k seen.
Proof.
  rewrite existsb_exists. split.
  - intros (x & Hx & Heq). now destruct (key_eqb_spec k x); subst.
  - intros Hin. exists k. split; [exact Hin | apply key_eqb_refl].
Qed.

Lemma fold_group_append_keys (l : list R) :
  forall g : list (GroupKey * list R),
    map fst (fold_left (fun g r => group_append (group_key r) r g) l g)
    = map fst g ++ unique_from key_eqb (map fst g) (map group_key l).
Proof.
  induction l as [|r l IH]; intros g; simpl.
  - now rewrite app_nil_r.
  - rewrite IH, group_append_keys.
    destruct (in_dec key_dec (group_key r) (map fst g)) as [Hin|Hnin].
    + apply existsb_key_In in Hin. now rewrite Hin.
    + destruct (existsb (key_eqb (group_key r)) (map fst g)) eqn:E.
      * apply existsb_key_In in E. contradiction.
      * now rewrite <- app_assoc.
Qed.

Lemma groupby_first_seen_keys (l : list R) :
  map fst (groupby l false) = unique key_eqb (map group_key l).
Proof. unfold groupby, unique. apply (fold_group_append_keys l []). Qed.
End GroupingMore.

Lemma payload_frames_are_groups (df : list DataRow) (horiz : Z) (freq : string) :
  map payload_frame (run_lambdamap_payloads df horiz freq)
  = map snd (groupby df false).
Proof.
  unfold run_lambdamap_payloads. rewrite map_map.
  apply map_ext. intros [k dd]. reflexivity.
Qed.

(** X1. The partition of [run_lambdamap] loses and duplicates nothing: the
    frames of the payloads, taken together, hold every row of the dataset
    exactly once. *)
Theorem run_lambdamap_payloads_cover_dataset :
  forall (df : list DataRow) (horiz : Z) (freq : string),
    Permutation
      (List.concat (map payload_frame (run_lambdamap_payloads df horiz freq)))
      df.
Proof.
  intros df horiz freq. rewrite payload_frames_are_groups.
  apply groupby_rows.
Qed.

(** X2. No payload of [run_lambdamap] is empty or mixed: its frame has at
    least one row, all its rows carry one groupKey, it holds every dataset
    row of that key, and it carries the horizon and frequency given with
    the fixed keyword arguments [obj_metric="smape_mean"], [cv_stride=2]. *)
Theorem run_lambdamap_payload_is_one_group :
  forall (df : list DataRow) (horiz : Z) (freq : string) (p : Payload),
    In p (run_lambdamap_payloads df horiz freq) ->
    payload_frame p <> []
    /\ (exists k : GroupKey,
          Forall (fun r => group_key r = k) (payload_frame p)
          /\ payload_frame p = rows_of_key df k)
    /\ args p = (payload_frame p, horiz, freq)
    /\ kwargs p = {| obj_metric := "smape_mean"; cv_stride := 2 |}.
Proof.
  intros df horiz freq p Hin.
  unfold run_lambdamap_payloads in Hin. apply in_map_iff in Hin.
  destruct Hin as ([k dd] & <- & Hin).
  destruct (groupby_first_seen_groups_of df) as (_ & Hkeys & Hrows).
  pose proof (Hrows k dd Hin) as Hdd. unfold payload_frame; simpl.
  split.
  - rewrite Hdd. apply rows_of_key_present, Hkeys.
    apply (in_map fst) in Hin. exact Hin.
  - split; [|split; reflexivity].
    exists k. split; [|exact Hdd]. rewrite Hdd. apply rows_of_key_same_key.
Qed.

Lemma run_lambdamap_payload_is_one_group_witness :
  let p := {| args := ([sample_row "ball" 1 7], 4%Z, "D"%string);
              kwargs := {| obj_metric := "smape_mean"; cv_stride := 2 |} |} in
  In p (run_lambdamap_payloads sample_dataset 4%Z "D")
  /\ payload_frame p <> []
  /\ (exists k : GroupKey,
        Forall (fun r => group_key r = k) (payload_frame p)
        /\ payload_frame p = rows_of_key sample_dataset k)
  /\ args p = (payload_frame p, 4%Z, "D"%string)
  /\ kwargs p = {| obj_metric := "smape_mean"; cv_stride := 2 |}.
Proof.
  intros p.
  assert (Hin : In p (run_lambdamap_payloads sample_dataset 4%Z "D")).
  { vm_compute. right. left. reflexivity. }
  split; [exact Hin|].
  exact (run_lambdamap_payload_is_one_group sample_dataset 4%Z "D" p Hin).
Defined.

(** X3. The payloads of [run_lambdamap] come in the order in which their
    groupKeys first appear in the dataset ([sort=False]): the list of
    payload frames is, key by key in first-seen order, the rows of that
    key in dataset order. *)
Theorem run_lambdamap_payloads_first_seen_order :
  forall (df : list DataRow) (horiz : Z) (freq : string),
    map payload_frame (run_lambdamap_payloads df horiz freq)
    = map (rows_of_key df) (unique key_eqb (map group_key df)).
Proof.
  intros df horiz freq.
  rewrite payload_frames_are_groups, <- groupby_first_seen_keys, map_map.
  destruct (groupby_first_seen_groups_of df) as (_ & _ & Hrows).
  apply map_ext_in. intros [k dd] Hin. simpl. apply Hrows, Hin.
Qed.

Section RuntimeMore.
Variable run_cv_select : Callable.
Variable LambdaFunction : Callable -> string -> Callable.
Variable finish_tick : nat -> nat.

Lemma submit_all_done_at (f : Callable) (payloads : list Payload) :
  forall ex : Executor,
    map done_at (fst (submit_all finish_tick ex f payloads))
    = map finish_tick (seq (len (_work_queue ex)) (len payloads)).
Proof.
  induction payloads as [|p payloads IH]; intros ex; simpl; [reflexivity|].
  specialize (IH (snd (submit finish_tick ex f p))). simpl in IH.
  destruct (submit_all finish_tick _ f payloads) as [futs ex2] eqn:E.
  simpl in *. rewrite IH, length_app, Nat.add_1_r. reflexivity.
Qed.

Lemma submit_all_app (f : Callable) (ps1 ps2 : list Payload) :
  forall ex : Executor,
    submit_all finish_tick ex f (ps1 ++ ps2)
    = (fst (submit_all finish_tick ex f ps1)
         ++ fst (submit_all finish_tick
                   (snd (submit_all finish_tick ex f ps1)) f ps2),
       snd (submit_all finish_tick
              (snd (submit_all finish_tick ex f ps1)) f ps2)).
Proof.
  induction ps1 as [|p ps1 IH]; intros ex; simpl.
  - now destruct (submit_all finish_tick ex f ps2).
  - pose proof (IH (snd (submit finish_tick ex f p))) as IH'.
    simpl in IH' |- *. rewrite IH'.
    destruct (submit_all finish_tick _ f ps1) as [futs1 ex1]. simpl.
    reflexivity.
Qed.

(** X4. [run_lambdamap] returns one future per distinct groupKey of the
    dataset, in payload order; each future holds what the first call of the
    remote proxy of [run_cv_select] for ["LambdaMapFunction"] yields on its
    payload, and is done when the pool has run the work item of its
    position. *)
Theorem run_lambdamap_one_future_per_group :
  forall (df : list DataRow) (horiz : Z) (freq : string),
    let payloads := run_lambdamap_payloads df horiz freq in
    let wait_for :=
      run_lambdamap run_cv_select LambdaFunction finish_tick df horiz freq in
    len wait_for = len (nodup key_dec (map group_key df))
    /\ map outcome wait_for
       = map (LambdaFunction run_cv_select "LambdaMapFunction" 0) payloads
    /\ map done_at wait_for = map finish_tick (seq 0 (len payloads)).
Proof.
  intros df horiz freq payloads wait_for.
  unfold wait_for, run_lambdamap, run_lambdamap_executor,
    StreamlitExecutor_map.
  fold payloads. cbn [_lambda_arn StreamlitExecutor].
  destruct (submit_all_spec finish_tick
              (LambdaFunction run_cv_select "LambdaMapFunction") payloads
              (StreamlitExecutor (Nat.min 1000 (len payloads))
                 "LambdaMapFunction")) as (_ & _ & _ & Hl & Ho).
  split; [|split].
  - rewrite Hl. unfold payloads, run_lambdamap_payloads.
    rewrite length_map. apply groups_of_length, groupby_first_seen_groups_of.
  - exact Ho.
  - apply (submit_all_done_at _ payloads
             (StreamlitExecutor (Nat.min 1000 (len payloads))
                "LambdaMapFunction")).
Qed.

(** X5. [run_lambdamap] asks for a pool of 0 workers exactly when the
    dataset has no row, and that is also the only case in which the batch
    it returns is empty. *)
Theorem run_lambdamap_empty_dataset :
  forall (df : list DataRow) (horiz : Z) (freq : string),
    let out :=
      run_lambdamap_executor run_cv_select LambdaFunction finish_tick
        df horiz freq in
    (_max_workers (snd out) = 0 <-> df = [])
    /\ (fst out = [] <-> df = []).
Proof.
  intros df horiz freq out.
  assert (Hpay : run_lambdamap_payloads df horiz freq = [] <-> df = []).
  { split.
    - intros Hnil.
      pose proof (run_lambdamap_payloads_cover_dataset df horiz freq) as Hp.
      rewrite Hnil in Hp. simpl in Hp.
      apply Permutation_nil in Hp. exact Hp.
    - intros ->. reflexivity. }
  unfold out, run_lambdamap_executor, StreamlitExecutor_map.
  cbn [_lambda_arn StreamlitExecutor].
  destruct (submit_all_spec finish_tick
              (LambdaFunction run_cv_select "LambdaMapFunction")
              (run_lambdamap_payloads df horiz freq)
              (StreamlitExecutor
                 (Nat.min 1000 (len (run_lambdamap_payloads df horiz freq)))
                 "LambdaMapFunction")) as (Hw & _ & _ & Hl & _).
  split.
  - rewrite Hw. cbn [_max_workers StreamlitExecutor]. rewrite <- Hpay.
    destruct (run_lambdamap_payloads df horiz freq); simpl;
      split; intros; try reflexivity; try discriminate; lia.
  - rewrite <- Hpay.
    destruct (run_lambdamap_payloads df horiz freq);
      destruct (fst (submit_all _ _ _ _)); simpl in Hl;
      split; intros; try reflexivity; try discriminate.
Qed.

(** X6. Submitting two lists of payloads through [map], one call after the
    other on the same executor, gives the futures and the executor that one
    call on the concatenated list gives. *)
Theorem map_twice_is_map_of_concatenation :
  forall (self : Executor) (func : Callable) (ps1 ps2 : list Payload)
         (local_mode : bool),
    let out1 := StreamlitExecutor_map LambdaFunction finish_tick self func
                  ps1 local_mode in
    let out2 := StreamlitExecutor_map LambdaFunction finish_tick (snd out1)
                  func ps2 local_mode in
    StreamlitExecutor_map LambdaFunction finish_tick self func (ps1 ++ ps2)
      local_mode
    = (fst out1 ++ fst out2, snd out2).
Proof.
  intros self func ps1 ps2 local_mode out1 out2.
  unfold out2, out1, StreamlitExecutor_map.
  destruct (submit_all_spec finish_tick
              (if local_mode then func
               else LambdaFunction func (_lambda_arn self)) ps1 self)
    as (_ & Harn & _).
  rewrite Harn. apply submit_all_app.
Qed.
End RuntimeMore.

(* ----------------------------------------------------------------- *)
(** ** Progress monitor: any batch *)

Lemma count_done_le_len (now : nat) (wait_for : list Future) :
  (0 <= count_done now wait_for <= Z.of_nat (len wait_for))%Z.
Proof.
  unfold count_done. induction wait_for as [|f fs IH]; [cbn; lia|].
  cbn [map List.length]. rewrite sum_cons.
  destruct (done now f); lia.
Qed.

Lemma count_done_mono (now : nat) (wait_for : list Future) :
  (count_done now wait_for <= count_done (S now) wait_for)%Z.
Proof.
  unfold count_done. induction wait_for as [|f fs IH]; [cbn; lia|].
  cbn [map]. rewrite !sum_cons.
  destruct (done now f) eqn:E1, (done (S now) f) eqn:E2; try lia.
  unfold done in E1, E2.
  apply Nat.leb_le in E1. apply Nat.leb_gt in E2. lia.
Qed.

Lemma display_progress_loop_monotone (wait_for : list Future) (fuel : nat) :
  forall (now : nat) (pbar : ProgressBar) (prev_n_done : Z) (iters : nat),
    Forall (fun f => done_at f <= now + fuel) wait_for ->
    (prev_n_done <= count_done now wait_for)%Z ->
    Forall (fun d => (0 <= d)%Z) (updates pbar) ->
    exists pbar' prev' iters',
      display_progress_loop fuel wait_for now pbar prev_n_done
        (count_done now wait_for) iters
      = Some (pbar', prev', Z.of_nat (len wait_for), iters')
      /\ Forall (fun d => (0 <= d)%Z) (updates pbar')
      /\ (prev' <= Z.of_nat (len wait_for))%Z
      /\ len (updates pbar') = len (updates pbar) + (iters' - iters)
      /\ iters <= iters' <= iters + fuel.
Proof.
  induction fuel as [|fuel IH]; intros now pbar prev_n_done iters Hdone Hprev Hpos.
  - rewrite Nat.add_0_r in Hdone.
    pose proof (count_done_all _ _ Hdone) as Hall. rewrite Hall in *.
    simpl. rewrite Z.eqb_refl. exists pbar, prev_n_done, iters.
    repeat split; auto; lia.
  - simpl.
    pose proof (count_done_le_len now wait_for) as Hle.
    destruct (Z.eqb_spec (count_done now wait_for) (Z.of_nat (len wait_for)))
      as [Heq|Hne].
    + rewrite Heq in *. exists pbar, prev_n_done, iters.
      repeat split; auto; lia.
    + destruct (IH (S now)
                  (update pbar (count_done now wait_for - prev_n_done)%Z)
                  (count_done now wait_for) (S iters))
        as (pbar' & prev' & iters' & Hrun & Hpos' & Hprev' & Hlen & Hit).
      * eapply Forall_impl; [|exact Hdone]. simpl. intros f Hf. lia.
      * apply count_done_mono.
      * simpl. apply Forall_app. split; [exact Hpos|].
        repeat constructor. lia.
      * exists pbar', prev', iters'. split; [exact Hrun|].
        split; [exact Hpos'|]. split; [exact Hprev'|].
        simpl in Hlen. rewrite length_app in Hlen. simpl in Hlen.
        split; lia.
Qed.

(** X7. Whatever the batch, given fuel for every poll until its last future
    is done, [display_progress] returns: the bar's total is the number of
    futures, no increment passed to the bar is negative, the increments add
    up to the number of futures, the bar gets one update per loop iteration
    plus the final one, and the loop runs at most once per poll. *)
Theorem display_progress_reports_every_future :
  forall (wait_for : list Future) (desc : option string),
    exists out : Progress,
      display_progress (last_done_at wait_for) wait_for desc = Some out
      /\ total (pbar_of out) = len wait_for
      /\ Forall (fun d => (0 <= d)%Z) (updates (pbar_of out))
      /\ sum (updates (pbar_of out)) = Z.of_nat (len wait_for)
      /\ len (updates (pbar_of out)) = S (iterations out)
      /\ iterations out <= last_done_at wait_for.
Proof.
  intros wait_for desc. unfold display_progress.
  pose proof (last_done_at_bound wait_for) as Hb.
  pose proof (count_done_le_len 0 wait_for) as Hle.
  destruct (display_progress_loop_returns wait_for (last_done_at wait_for) 0
              (stqdm desc (len wait_for)) 0%Z 0 Hb eq_refl)
    as (pbar1 & prev1 & iters1 & Hrun1 & Hsum & _ & Ht).
  destruct (display_progress_loop_monotone wait_for (last_done_at wait_for) 0
              (stqdm desc (len wait_for)) 0%Z 0 Hb (proj1 Hle)
              (Forall_nil _))
    as (pbar2 & prev2 & iters2 & Hrun2 & Hpos & Hprev & Hlen & Hit).
  rewrite Hrun1 in Hrun2. injection Hrun2 as <- <- <-.
  rewrite Hrun1. eexists. split; [reflexivity|]. simpl.
  split; [exact Ht|].
  split; [apply Forall_app; split; [exact Hpos | repeat constructor; lia]|].
  split; [rewrite sum_snoc, Hsum; lia|].
  simpl in Hlen. rewrite length_app. simpl. lia.
Qed.

(** X8. When every future of the batch is already done at the first count,
    [display_progress] returns whatever the fuel without running its loop
    body, and updates the bar once, by the whole number of futures. *)
Theorem display_progress_batch_already_done :
  forall (fuel : nat) (wait_for : list Future) (desc : option string),
    Forall (fun f => done_at f = 0) wait_for ->
    display_progress fuel wait_for desc =
    Some {| pbar_of := {| desc := desc; total := len wait_for;
                          updates := [Z.of_nat (len wait_for)] |};
            iterations := 0 |}.
Proof.
  intros fuel wait_for desc Hdone.
  assert (Hall : count_done 0 wait_for = Z.of_nat (len wait_for)).
  { apply count_done_all. eapply Forall_impl; [|exact Hdone].
    simpl. intros f ->. lia. }
  unfold display_progress. rewrite Hall.
  destruct fuel; simpl; rewrite Z.eqb_refl; simpl;
    now rewrite Z.sub_0_r.
Qed.

Lemma display_progress_batch_already_done_witness :
  let wait_for := [ {| done_at := 0; outcome := Returned ([], []) |};
                    {| done_at := 0; outcome := Returned ([], []) |} ] in
  Forall (fun f => done_at f = 0) wait_for
  /\ display_progress 0 wait_for None =
     Some {| pbar_of := {| desc := None; total := len wait_for;
                           updates := [Z.of_nat (len wait_for)] |};
             iterations := 0 |}.
Proof.
  intros wait_for.
  assert (Hdone : Forall (fun f => done_at f = 0) wait_for)
    by (repeat constructor).
  split; [exact Hdone|].
  exact (display_progress_batch_already_done 0 wait_for None Hdone).
Defined.

(* ----------------------------------------------------------------- *)
(** ** Aggregation: edge cases and invariants *)

Lemma as_completed_empty (order : list nat) : as_completed [] order = [].
Proof.
  unfold as_completed. induction order as [|i order IH]; simpl; [reflexivity|].
  rewrite IH. now destruct i.
Qed.

(** X9. On an empty batch, whatever the yield order, both aggregations
    raise the ValueError of [pd.concat] on an empty list and leave the
    session state as it was. *)
Theorem aggregation_of_empty_batch_raises :
  forall (order : list nat) (st : SessionState),
    make_dataframes [] order st
    = (inl (ValueError "No objects to concatenate"), st)
    /\ panel_launch_forecast [] order st
       = (inl (ValueError "No objects to concatenate"), st).
Proof.
  intros order st.
  rewrite make_dataframes_run, panel_launch_forecast_run, as_completed_empty.
  split; reflexivity.
Qed.

(** X10. [make_dataframes] never touches its inputs in the session state:
    whether it returns or raises, the dataset [state.df] and the output
    frequency [state.freq_out] are the ones it was called with; and when it
    returns, the state it returns is the session state it leaves. *)
Theorem make_dataframes_keeps_inputs :
  forall (wait_for : list Future) (order : list nat) (st : SessionState),
    let run := make_dataframes wait_for order st in
    df (snd run) = df st
    /\ freq_out (snd run) = freq_out st
    /\ (forall st', fst run = inr st' -> st' = snd run).
Proof.
  intros wait_for order st run. unfold run.
  rewrite make_dataframes_run.
  destruct (results (as_completed wait_for order)) as [exn|[|out raw]];
    try (repeat split; [intros st' Hst'; discriminate Hst']).
  cbv zeta. destruct (assign_index _ _) as [exn|top]; simpl.
  - repeat split. intros st' Hst'. discriminate Hst'.
  - repeat split. intros st' Hst'. now injection Hst' as <-.
Qed.

(** X11. Aggregating the same batch again is idempotent: run on the state
    that a first run of [make_dataframes] left (with the same yield order),
    it gives the same outcome and leaves the same state. *)
Theorem make_dataframes_idempotent :
  forall (wait_for : list Future) (order : list nat) (st : SessionState),
    make_dataframes wait_for order
      (snd (make_dataframes wait_for order st))
    = make_dataframes wait_for order st.
Proof.
  intros wait_for order st.
  rewrite !make_dataframes_run.
  destruct (results (as_completed wait_for order)) as [exn|[|out raw]];
    try reflexivity.
  cbv zeta. destruct (assign_index _ _) as [exn|top]; reflexivity.
Qed.

(** X12. The two aggregations agree: on the same batch, yield order and
    state, [panel_launch_forecast] and [make_dataframes] leave the same
    metrics table, predictions table, demand classification and
    performance summary, and whenever [panel_launch_forecast] raises,
    [make_dataframes] raises the same exception. *)
Theorem aggregations_agree :
  forall (wait_for : list Future) (order : list nat) (st : SessionState),
    let a := make_dataframes wait_for order st in
    let b := panel_launch_forecast wait_for order st in
    df_results (snd a) = df_results (snd b)
    /\ df_pred (snd a) = df_pred (snd b)
    /\ df_demand_cln (snd a) = df_demand_cln (snd b)
    /\ perf_summary (snd a) = perf_summary (snd b)
    /\ (forall exn, fst b = inl exn -> fst a = inl exn).
Proof.
  intros wait_for order st a b. unfold a, b.
  rewrite make_dataframes_run, panel_launch_forecast_run.
  destruct (results (as_completed wait_for order)) as [exn|[|out raw]].
  - simpl. repeat split; try reflexivity.
    intros exn' Hexn. injection Hexn as ->. reflexivity.
  - simpl. repeat split; try reflexivity.
    intros exn' Hexn. injection Hexn as <-. reflexivity.
  - cbv zeta. destruct (assign_index _ _) as [exn|top]; simpl;
      repeat split; intros exn' Hexn; discriminate Hexn.
Qed.





(* ----------------------------------------------------------------- *)
(** ** Row filter: composition with the partition, empty keys *)

Lemma boolean_index_make_mask {R} `{GroupCols R}
      (df : list R) (channel family item_id : string) :
  boolean_index df (make_mask df channel family item_id) =
  if ((channel =? "") || (family =? "") || (item_id =? ""))%string
  then []
  else rows_of_key df (channel, family, item_id).
Proof.
  rewrite make_mask_closed_form.
  destruct ((channel =? "") || (family =? "") || (item_id =? ""))%string.
  - apply boolean_index_zeros.
  - apply boolean_index_map.
Qed.

(** X14. Filter and partition agree: for a row of a payload of
    [run_lambdamap] whose three keys are non-empty, indexing the dataset by
    the mask of that row's keys gives back exactly the payload's frame. *)
Theorem make_mask_recovers_payload_frame :
  forall (df : list DataRow) (horiz : Z) (freq : string)
         (p : Payload) (r : DataRow),
    In p (run_lambdamap_payloads df horiz freq) ->
    In r (payload_frame p) ->
    d_channel r <> ""%string ->
    d_family r <> ""%string ->
    d_item_id r <> ""%string ->
    boolean_index df (make_mask df (d_channel r) (d_family r) (d_item_id r))
    = payload_frame p.
Proof.
  intros df horiz freq p r Hp Hr Hc Hf Hi.
  unfold run_lambdamap_payloads in Hp. apply in_map_iff in Hp.
  destruct Hp as ([k dd] & <- & Hin).
  destruct (groupby_first_seen_groups_of df) as (_ & _ & Hrows).
  unfold payload_frame in *; simpl in *.
  rewrite (Hrows k dd Hin) in *.
  pose proof (rows_of_key_same_key df k) as Hsame.
  rewrite Forall_forall in Hsame. specialize (Hsame r Hr).
  rewrite boolean_index_make_mask.
  apply String.eqb_neq in Hc, Hf, Hi. rewrite Hc, Hf, Hi. simpl.
  now rewrite <- Hsame.
Qed.

Lemma make_mask_recovers_payload_frame_witness :
  let p := {| args := ([sample_row "kite" 1 5; sample_row "kite" 2 6],
                       4%Z, "D"%string);
              kwargs := {| obj_metric := "smape_mean"; cv_stride := 2 |} |} in
  let r := sample_row "kite" 2 6 in
  In p (run_lambdamap_payloads sample_dataset 4%Z "D")
  /\ In r (payload_frame p)
  /\ d_channel r <> ""%string
  /\ d_family r <> ""%string
  /\ d_item_id r <> ""%string
  /\ boolean_index sample_dataset
       (make_mask sample_dataset (d_channel r) (d_family r) (d_item_id r))
     = payload_frame p.
Proof.
  intros p r.
  assert (Hp : In p (run_lambdamap_payloads sample_dataset 4%Z "D")).
  { vm_compute. left. reflexivity. }
  assert (Hr : In r (payload_frame p)) by (right; left; reflexivity).
  assert (Hc : d_channel r <> ""%string) by discriminate.
  assert (Hf : d_family r <> ""%string) by discriminate.
  assert (Hi : d_item_id r <> ""%string) by discriminate.
  repeat (split; [assumption|]).
  exact (make_mask_recovers_payload_frame sample_dataset 4%Z "D" p r
           Hp Hr Hc Hf Hi).
Defined.

(** X15. A row with an empty key can never be selected: every row that the
    mask of [make_mask] keeps is a row of the frame whose channel, family
    and item_id equal the three keys given, and none of the three is the
    empty string. *)
Theorem make_mask_never_selects_empty_key :
  forall (R : Type) (cols : GroupCols R) (df : list R)
         (channel family item_id : string) (r : R),
    In r (boolean_index df (make_mask df channel family item_id)) ->
    In r df
    /\ col_channel r = channel /\ col_family r = family
    /\ col_item_id r = item_id
    /\ col_channel r <> ""%string /\ col_family r <> ""%string
    /\ col_item_id r <> ""%string.
Proof.
  intros R cols df channel family item_id r Hin.
  rewrite boolean_index_make_mask in Hin.
  destruct (String.eqb_spec channel ""), (String.eqb_spec family ""),
    (String.eqb_spec item_id ""); simpl in Hin; try contradiction.
  apply filter_In in Hin. destruct Hin as [Hdf Hk].
  destruct (key_eqb_spec (group_key r) (channel, family, item_id))
    as [Heq|]; [|discriminate].
  injection Heq as -> -> ->. auto 10.
Qed.

Lemma make_mask_never_selects_empty_key_witness :
  let r := sample_row "ball" 1 7 in
  In r (boolean_index sample_dataset
          (make_mask sample_dataset "web" "toys" "ball"))
  /\ In r sample_dataset
  /\ col_channel r = "web"%string /\ col_family r = "toys"%string
  /\ col_item_id r = "ball"%string
  /\ col_channel r <> ""%string /\ col_family r <> ""%string
  /\ col_item_id r <> ""%string.
Proof.
  intros r.
  assert (Hin : In r (boolean_index sample_dataset
                        (make_mask sample_dataset "web" "toys" "ball"))).
  { vm_compute. left. reflexivity. }
  split; [exact Hin|].
  exact (make_mask_never_selects_empty_key DataRow DataRow_cols sample_dataset
           "web" "toys" "ball" r Hin).
Defined.

(* ----------------------------------------------------------------- *)
(** ** validate *)

Lemma validate_errors_from (df : UploadFrame) (cols : list string) :
  forall errs : list string,
    fold_left (fun errs col =>
                 if negb (has_column df col)
                 then errs ++ [missing_column_msg col]
                 else errs) cols errs
    = errs ++ map missing_column_msg
                  (filter (fun col => negb (has_column df col)) cols).
Proof.
  induction cols as [|col cols IH]; intros errs; simpl.
  - now rewrite app_nil_r.
  - rewrite IH. destruct (negb (has_column df col)); simpl;
      [now rewrite <- app_assoc | reflexivity].
Qed.

Lemma has_column_In (df : UploadFrame) (col : string) :
  has_column df col = true <-> In col (columns df).
Proof.
  unfold has_column. rewrite existsb_exists. split.
  - intros (x & Hx & Heq). apply String.eqb_eq in Heq. now subst.
  - intros Hin. exists col. split; [exact Hin | apply String.eqb_refl].
Qed.

(** X16. [validate] accepts a frame exactly when every expected column is
    among the frame's columns; otherwise its error list holds one
    "missing **col** column" message per expected column that is absent,
    in the order of [EXP_COLS]. It never issues a warning. *)
Theorem validate_accepts_iff_all_columns :
  forall (EXP_COLS : list string) (df : UploadFrame),
    let out := validate EXP_COLS df in
    (snd out = true <-> forall col, In col EXP_COLS -> In col (columns df))
    /\ errors (fst out)
       = map missing_column_msg
           (filter (fun col => negb (has_column df col)) EXP_COLS)
    /\ warnings (fst out) = [].
Proof.
  intros EXP_COLS df out. unfold out, validate. cbn [fst snd errors warnings].
  rewrite validate_errors_from. cbn [app].
  split; [|split; reflexivity].
  rewrite length_map, Nat.eqb_eq, length_zero_iff_nil.
  split.
  - intros Hnil col Hin. apply has_column_In.
    destruct (has_column df col) eqn:E; [reflexivity|].
    assert (Hmiss : In col (filter (fun c => negb (has_column df c)) EXP_COLS)).
    { apply filter_In. split; [exact Hin | now rewrite E]. }
    rewrite Hnil in Hmiss. contradiction.
  - intros Hall.
    destruct (filter (fun c => negb (has_column df c)) EXP_COLS)
      as [|col rest] eqn:E; [reflexivity|].
    assert (Hmiss : In col (filter (fun c => negb (has_column df c)) EXP_COLS))
      by (rewrite E; now left).
    apply filter_In in Hmiss. destruct Hmiss as [Hin Hneg].
    apply Hall, has_column_In in Hin. rewrite Hin in Hneg. discriminate.
Qed.

(* ----------------------------------------------------------------- *)
(** ** Visualization panel *)

Lemma unique_from_In {A} (eqb : A -> A -> bool)
      (eqb_eq : forall a b, eqb a b = true <-> a = b) (l : list A) :
  forall (seen : list A) (x : A),
    In x (unique_from eqb seen l) <-> In x l /\ ~ In x seen.
Proof.
  induction l as [|y l IH]; intros seen x; simpl; [tauto|].
  destruct (existsb (eqb y) seen) eqn:E.
  - apply existsb_exists in E. destruct E as (z & Hz & Heq).
    apply eqb_eq in Heq. subst z. rewrite IH. split.
    + intros [Hin Hnot]. auto.
    + intros [[->|Hin] Hnot]; [contradiction | auto].
  - assert (Hy : ~ In y seen).
    { intros Hin. assert (existsb (eqb y) seen = true); [|congruence].
      apply existsb_exists. exists y. split; [exact Hin | now apply eqb_eq]. }
    simpl. rewrite IH, in_app_iff. simpl. split.
    + intros [->|[Hin Hnot]]; [auto | split; [auto | tauto]].
    + intros [[->|Hin] Hnot]; [auto|].
      destruct (eqb y x) eqn:Eyx.
      * apply eqb_eq in Eyx. auto.
      * right. split; [exact Hin|]. intros [Hs|[Heq|[]]]; [auto|].
        subst. assert (eqb x x = true) by now apply eqb_eq. congruence.
Qed.

Lemma sorted_unique_In (l : list string) (x : string) :
  In x (sorted (unique String.eqb l)) <-> In x l.
Proof.
  unfold sorted, unique. split.
  - intros Hin.
    apply (Permutation_in _ (insertion_sort_permutation String.ltb _)) in Hin.
    apply (unique_from_In String.eqb String.eqb_eq) in Hin. tauto.
  - intros Hin.
    apply (Permutation_in _
             (Permutation_sym (insertion_sort_permutation String.ltb _))).
    apply (unique_from_In String.eqb String.eqb_eq). auto.
Qed.

Lemma index_from_nth (x : string) (l : list string) :
  forall k : nat,
    In x l ->
    exists i, index_from x l k = Some (k + i) /\ nth i l ""%string = x.
Proof.
  induction l as [|y l IH]; intros k Hin; [contradiction|]. simpl.
  destruct (String.eqb_spec y x) as [->|Hne].
  - exists 0. rewrite Nat.add_0_r. auto.
  - destruct Hin as [Heq|Hin]; [contradiction|].
    destruct (IH (S k) Hin) as (i & Hidx & Hnth).
    exists (S i). rewrite Hidx. split; [f_equal; lia | exact Hnth].
Qed.

Lemma list_index_found (x : string) (l : list string) :
  In x l ->
  exists i, list_index (Some x) l = inr i /\ nth i l ""%string = x.
Proof.
  intros Hin. destruct (index_from_nth x l 0 Hin) as (i & Hidx & Hnth).
  exists i. unfold list_index. rewrite Hidx. auto.
Qed.

Section PanelFacts.
Variable selectbox : string -> list string -> nat -> string.

End PanelFacts.


Section PanelDefaults.
Variable selectbox : string -> list string -> nat -> string.

(** X18. On its first rendering (every selectbox gives the option at its
    default index), [panel_visualization] shows the group that leads the
    leaderboard: when the first leaderboard row is a group with non-empty
    keys that appear in the metrics table, the chart is built from exactly
    the rows of that group in the predictions table, and nothing is
    charted when there is no such row. *)
Theorem panel_visualization_default_shows_top_group :
  forall (state : SessionState) (results_df : list ResultRow)
         (pred_df : list PredRow) (rank : Z) (top : TopRow)
         (rest : Leaderboard),
    (forall label options index,
        selectbox label options index = nth index options ""%string) ->
    df_results state = Some results_df ->
    df_pred state = Some pred_df ->
    df_top state = Some ((rank, Some top) :: rest) ->
    In (t_channel top) (map r_channel results_df) ->
    In (t_family top) (map r_family results_df) ->
    In (t_item_id top) (map r_item_id results_df) ->
    t_channel top <> ""%string ->
    t_family top <> ""%string ->
    t_item_id top <> ""%string ->
    let rows := rows_of_key pred_df (group_key top) in
    panel_visualization selectbox state
    = inr (if 0 <? len rows then Some (chart_of rows) else None).
Proof.
  intros state results_df pred_df rank top rest Hsel Hres Hpred Htop
         Hc Hf Hi Hcne Hfne Hine rows.
  unfold panel_visualization. rewrite Hres, Htop, Hpred.
  cbn [iloc_0 option_map].
  destruct (list_index_found (t_channel top)
              (""%string :: sorted (unique String.eqb (map r_channel results_df))))
    as (ci & Hci & Hcn); [right; now apply sorted_unique_In|].
  destruct (list_index_found (t_family top)
              (""%string :: sorted (unique String.eqb (map r_family results_df))))
    as (fi & Hfi & Hfn); [right; now apply sorted_unique_In|].
  destruct (list_index_found (t_item_id top)
              (""%string :: sorted (unique String.eqb (map r_item_id results_df))))
    as (ii & Hii & Hin); [right; now apply sorted_unique_In|].
  rewrite Hci, Hfi, Hii. cbv zeta.
  rewrite !Hsel, Hcn, Hfn, Hin, boolean_index_make_mask.
  apply String.eqb_neq in Hcne, Hfne, Hine. rewrite Hcne, Hfne, Hine.
  cbn [orb].
  change (rows_of_key pred_df (t_channel top, t_family top, t_item_id top))
    with rows.
  destruct (0 <? len rows); reflexivity.
Qed.

(** X19. A batch without history drains but cannot be visualized: when
    [make_dataframes] returns on a batch whose predictions have no
    'actual' row, the leaderboard it leaves is all NaN and
    [panel_visualization] raises the ValueError of [list.index] on the
    state it returned. *)
Theorem panel_visualization_fails_without_history :
  forall (wait_for : list Future) (order : list nat)
         (st st' : SessionState),
    fst (make_dataframes wait_for order st) = inr st' ->
    df_hist st' = Some [] ->
    panel_visualization selectbox st'
    = inl (Other (ValueError "nan is not in list")).
Proof.
  intros wait_for order st st' Hrun Hhist.
  rewrite make_dataframes_run in Hrun.
  destruct (results (as_completed wait_for order)) as [exn|[|out raw]];
    try discriminate.
  cbv zeta in Hrun.
  remember (query_type_actual (List.concat (map fst (out :: raw)))) as hist
    eqn:Hh.
  destruct (assign_index _ _) as [exn|top] eqn:Hassign; [discriminate|].
  injection Hrun as <-.
  assert (Hq : hist = []).
  { unfold aggregated in Hhist. cbn [df_hist set_df_top set_df_hist] in Hhist.
    rewrite <- Hh in Hhist. now injection Hhist. }
  rewrite Hq in Hassign.
  vm_compute in Hassign. injection Hassign as <-.
  reflexivity.
Qed.

(** X20. After a drain that raised, a session that had no leaderboard
    cannot be visualized either: [panel_visualization] raises the
    TypeError of subscripting [None] on the state that [make_dataframes]
    left, whether or not the tables were assigned before the exception. *)
Theorem panel_visualization_after_failed_drain :
  forall (wait_for : list Future) (order : list nat) (st : SessionState)
         (exn : Exception),
    df_top st = None ->
    fst (make_dataframes wait_for order st) = inl exn ->
    panel_visualization selectbox (snd (make_dataframes wait_for order st))
    = inl none_not_subscriptable.
Proof.
  intros wait_for order st exn Htop Hrun.
  rewrite make_dataframes_run in Hrun |- *.
  destruct (results (as_completed wait_for order)) as [exn'|[|out raw]].
  - simpl. unfold panel_visualization. rewrite Htop.
    now destruct (df_results st).
  - simpl. unfold panel_visualization. rewrite Htop.
    now destruct (df_results st).
  - cbv zeta in Hrun |- *.
    destruct (assign_index _ _) as [exn'|top]; [|discriminate].
    simpl. unfold panel_visualization. simpl. rewrite Htop. reflexivity.
Qed.
End PanelDefaults.

Lemma panel_visualization_default_shows_top_group_witness :
  let top := {| t_channel := "web"; t_family := "toys"; t_item_id := "a";
                t_demand := 10 |} in
  let results_df := List.concat (map unit_metrics sample_batch) in
  let pred_df := List.concat (map unit_pred sample_batch) in
  let rest := match df_top sample_drained_state with
              | Some (_ :: rest) => rest
              | _ => []
              end in
  let rows := rows_of_key pred_df (group_key top) in
  (forall label options index,
      default_selectbox label options index = nth index options ""%string)
  /\ df_results sample_drained_state = Some results_df
  /\ df_pred sample_drained_state = Some pred_df
  /\ df_top sample_drained_state = Some ((1%Z, Some top) :: rest)
  /\ In (t_channel top) (map r_channel results_df)
  /\ In (t_family top) (map r_family results_df)
  /\ In (t_item_id top) (map r_item_id results_df)
  /\ t_channel top <> ""%string
  /\ t_family top <> ""%string
  /\ t_item_id top <> ""%string
  /\ panel_visualization default_selectbox sample_drained_state
     = inr (if 0 <? len rows then Some (chart_of rows) else None).
Proof.
  intros top results_df pred_df rest rows.
  assert (Hsel : forall label options index,
             default_selectbox label options index
             = nth index options ""%string) by reflexivity.
  assert (Hres : df_results sample_drained_state = Some results_df)
    by (vm_compute; reflexivity).
  assert (Hpred : df_pred sample_drained_state = Some pred_df)
    by (vm_compute; reflexivity).
  assert (Htop : df_top sample_drained_state = Some ((1%Z, Some top) :: rest))
    by (vm_compute; reflexivity).
  assert (Hc : In (t_channel top) (map r_channel results_df))
    by (vm_compute; tauto).
  assert (Hf : In (t_family top) (map r_family results_df))
    by (vm_compute; tauto).
  assert (Hi : In (t_item_id top) (map r_item_id results_df))
    by (vm_compute; tauto).
  assert (Hcne : t_channel top <> ""%string) by discriminate.
  assert (Hfne : t_family top <> ""%string) by discriminate.
  assert (Hine : t_item_id top <> ""%string) by discriminate.
  repeat (split; [assumption|]).
  exact (panel_visualization_default_shows_top_group default_selectbox
           sample_drained_state results_df pred_df 1%Z top rest
           Hsel Hres Hpred Htop Hc Hf Hi Hcne Hfne Hine).
Defined.

Lemma panel_visualization_fails_without_history_witness :
  let st' := snd (make_dataframes forecast_only_batch [0] sample_state) in
  fst (make_dataframes forecast_only_batch [0] sample_state) = inr st'
  /\ df_hist st' = Some []
  /\ panel_visualization default_selectbox st'
     = inl (Other (ValueError "nan is not in list")).
Proof.
  intros st'.
  assert (Hrun : fst (make_dataframes forecast_only_batch [0] sample_state)
                 = inr st') by (vm_compute; reflexivity).
  assert (Hhist : df_hist st' = Some []) by (vm_compute; reflexivity).
  repeat (split; [assumption|]).
  exact (panel_visualization_fails_without_history default_selectbox
           forecast_only_batch [0] sample_state st' Hrun Hhist).
Defined.

Lemma panel_visualization_after_failed_drain_witness :
  let exn := UnitExecutionError "series too short" in
  df_top sample_state = None
  /\ fst (make_dataframes failing_batch (seq 0 3) sample_state) = inl exn
  /\ panel_visualization default_selectbox
       (snd (make_dataframes failing_batch (seq 0 3) sample_state))
     = inl none_not_subscriptable.
Proof.
  intros exn.
  assert (Htop : df_top sample_state = None) by reflexivity.
  assert (Hrun : fst (make_dataframes failing_batch (seq 0 3) sample_state)
                 = inl exn) by reflexivity.
  repeat (split; [assumption|]).
  exact (panel_visualization_after_failed_drain default_selectbox
           failing_batch (seq 0 3) sample_state exn Htop Hrun).
Defined.

(* ----------------------------------------------------------------- *)
(** ** Report page *)

Lemma assign_index_nan_rows (values : list Z) (top_df : Leaderboard)
      (col : TopRow -> string) :
  assign_index [] values = inr top_df ->
  iloc_0 col top_df = inl (IndexError "single positional indexer is out-of-bounds")
  \/ iloc_0 col top_df = inr None.
Proof.
  destruct values as [|v values]; simpl; intros [= <-]; simpl; auto.
Qed.

Section PageFacts.
Variable selectbox : string -> list string -> nat -> string.

(** X21. The report page recomputes what the drain stored: whenever
    [page_view_report] renders on the state that [make_dataframes]
    returned, the leaderboard it tabulates is the stored [state.df_top],
    the number of series it reports is the number of groups with history,
    and that number is at least ten. *)
Theorem page_view_report_shows_stored_leaderboard :
  forall (wait_for : list Future) (order : list nat)
         (st st' : SessionState) (report : Report),
    fst (make_dataframes wait_for order st) = inr st' ->
    page_view_report selectbox st' = inr (Rendered report) ->
    df_top st' = Some (top_shown report)
    /\ (exists hist : list PredRow,
          df_hist st' = Some hist
          /\ num_series report = len (ranking hist))
    /\ 10 <= num_series report.
Proof.
  intros wait_for order st st' report Hrun Hpage.
  rewrite make_dataframes_run in Hrun.
  destruct (results (as_completed wait_for order)) as [exn|[|out raw]];
    try discriminate.
  cbv zeta in Hrun.
  remember (query_type_actual (List.concat (map fst (out :: raw)))) as hist
    eqn:Hh.
  destruct (assign_index _ _) as [exn|top] eqn:Hassign; [discriminate|].
  injection Hrun as <-.
  unfold page_view_report in Hpage.
  unfold aggregated in Hpage.
  cbn [df_results df_pred df_demand_cln set_df_top set_df_hist
       set_perf_summary set_df_demand_cln set_df_pred set_df_results]
    in Hpage.
  cbv zeta in Hpage. rewrite <- Hh in Hpage.
  change (head 10 (sort_values_demand_desc (agg_demand_sum (groupby hist true))))
    with (top_rows hist) in Hpage.
  change (arange_plus_1 10) with (arange_plus_1 n_top) in Hpage.
  rewrite Hassign in Hpage.
  assert (Hrows : top_rows hist <> []).
  { intros Hnil. rewrite Hnil in Hassign.
    destruct (assign_index_nan_rows _ _ t_channel Hassign) as [He|He];
      rewrite He in Hpage; discriminate. }
  assert (Hlen : len (top_rows hist) = 10).
  { destruct (Nat.eq_dec (len (arange_plus_1 n_top)) (len (top_rows hist)))
      as [Heq|Hneq].
    - now rewrite arange_plus_1_length in Heq.
    - rewrite (assign_index_mismatch _ _ Hrows Hneq) in Hassign.
      discriminate. }
  assert (Hseries : len (unique key_eqb (map group_key hist))
                    = len (ranking hist)).
  { rewrite <- groupby_first_seen_keys.
    rewrite <- (Permutation_length (ranking_keys hist)).
    now rewrite length_map. }
  destruct (iloc_0 t_channel top) as [|c0]; [discriminate|].
  destruct (list_index c0 _) as [|ci]; [discriminate|].
  destruct (iloc_0 t_family top) as [|f0]; [discriminate|].
  destruct (list_index f0 _) as [|fi]; [discriminate|].
  destruct (iloc_0 t_item_id top) as [|i0]; [discriminate|].
  destruct (list_index i0 _) as [|ii]; [discriminate|].
  injection Hpage as <-. cbn [top_shown num_series].
  split; [reflexivity|]. split.
  - exists hist. split; [|exact Hseries].
    unfold aggregated. cbn [df_hist set_df_top set_df_hist]. now rewrite Hh.
  - rewrite Hseries, ranking_length.
    rewrite top_rows_length in Hlen. lia.
Qed.

(** X22. The report page has the defect of the drain: on a session whose
    predictions table has between 1 and 9 distinct groupKeys among its
    'actual' rows, [page_view_report] raises the ValueError of assigning
    ten ranks before it shows anything of the filter or the chart. *)
Theorem page_view_report_needs_ten_groups :
  forall (state : SessionState) (results_df : list ResultRow)
         (pred_df : list PredRow),
    df_results state = Some results_df ->
    df_pred state = Some pred_df ->
    0 < len (nodup key_dec (map group_key (query_type_actual pred_df))) < 10 ->
    page_view_report selectbox state
    = inl (Other (ValueError "Length of values does not match length of index")).
Proof.
  intros state results_df pred_df Hres Hpred Hn.
  unfold page_view_report. rewrite Hres, Hpred. cbv zeta.
  pose proof (top_rows_length (query_type_actual pred_df)) as Hlen.
  change (head 10 (sort_values_demand_desc
                     (agg_demand_sum (groupby (query_type_actual pred_df) true))))
    with (top_rows (query_type_actual pred_df)).
  change (arange_plus_1 10) with (arange_plus_1 n_top).
  rewrite assign_index_mismatch; [reflexivity| |].
  - intros Hnil. apply (f_equal (@List.length _)) in Hnil.
    cbn [List.length] in Hnil. lia.
  - rewrite arange_plus_1_length, Hlen. unfold n_top. lia.
Qed.
End PageFacts.

Lemma page_view_report_shows_stored_leaderboard_witness :
  let report :=
    match page_view_report default_selectbox sample_drained_state with
    | inr (Rendered report) => report
    | _ => {| num_series := 0; channels_shown := 0; families_shown := 0;
              items_shown := 0; top_shown := []; chart_shown := None |}
    end in
  fst (make_dataframes sample_batch (seq 0 10) sample_state)
  = inr sample_drained_state
  /\ page_view_report default_selectbox sample_drained_state
     = inr (Rendered report)
  /\ df_top sample_drained_state = Some (top_shown report)
  /\ (exists hist : list PredRow,
        df_hist sample_drained_state = Some hist
        /\ num_series report = len (ranking hist))
  /\ 10 <= num_series report.
Proof.
  intros report.
  assert (Hrun : fst (make_dataframes sample_batch (seq 0 10) sample_state)
                 = inr sample_drained_state) by (vm_compute; reflexivity).
  assert (Hpage : page_view_report default_selectbox sample_drained_state
                  = inr (Rendered report)) by (vm_compute; reflexivity).
  split; [exact Hrun|]. split; [exact Hpage|].
  exact (page_view_report_shows_stored_leaderboard default_selectbox
           sample_batch (seq 0 10) sample_state sample_drained_state report
           Hrun Hpage).
Defined.

Lemma page_view_report_needs_ten_groups_witness :
  let results_df := List.concat (map unit_metrics (firstn 3 sample_batch)) in
  let pred_df := List.concat (map unit_pred (firstn 3 sample_batch)) in
  df_results sample_three_groups_state = Some results_df
  /\ df_pred sample_three_groups_state = Some pred_df
  /\ 0 < len (nodup key_dec (map group_key (query_type_actual pred_df))) < 10
  /\ page_view_report default_selectbox sample_three_groups_state
     = inl (Other (ValueError "Length of values does not match length of index")).
Proof.
  intros results_df pred_df.
  assert (Hres : df_results sample_three_groups_state = Some results_df)
    by (vm_compute; reflexivity).
  assert (Hpred : df_pred sample_three_groups_state = Some pred_df)
    by (vm_compute; reflexivity).
  assert (Hn : 0 < len (nodup key_dec
                          (map group_key (query_type_actual pred_df))) < 10)
    by (vm_compute; lia).
  repeat (split; [assumption|]).
  exact (page_view_report_needs_ten_groups default_selectbox
           sample_three_groups_state results_df pred_df Hres Hpred Hn).
Defined.

(* ----------------------------------------------------------------- *)
(** ** Downloads *)










(* ----------------------------------------------------------------- *)
(** ** Shape of the leaderboard, launch of a job *)

Lemma combine_fst {A B} (l : list A) (l' : list B) :
  len l = len l' -> map fst (combine l l') = l.
Proof.
  revert l'. induction l as [|a l IH]; intros [|b l'] Hlen; simpl in *;
    try discriminate; [reflexivity|].
  f_equal. apply IH. lia.
Qed.

(** X24. Whenever [make_dataframes] returns, the leaderboard it stored has
    exactly the ten rank labels 1 to 10, in order, and its rows are either
    all groups or all NaN. *)
Theorem make_dataframes_leaderboard_has_ten_ranks :
  forall (wait_for : list Future) (order : list nat)
         (st st' : SessionState),
    fst (make_dataframes wait_for order st) = inr st' ->
    exists top : Leaderboard,
      df_top st' = Some top
      /\ map fst top = [1; 2; 3; 4; 5; 6; 7; 8; 9; 10]%Z
      /\ (Forall (fun row => snd row = None) top
          \/ Forall (fun row => exists r, snd row = Some r) top).
Proof.
  intros wait_for order st st' Hrun.
  rewrite make_dataframes_run in Hrun.
  destruct (results (as_completed wait_for order)) as [exn|[|out raw]];
    try discriminate.
  cbv zeta in Hrun.
  remember (top_rows (query_type_actual (List.concat (map fst (out :: raw)))))
    as rows eqn:Hrows.
  destruct (assign_index rows (arange_plus_1 n_top)) as [exn|top] eqn:Hassign;
    [discriminate|].
  injection Hrun as <-. exists top. split; [reflexivity|].
  destruct rows as [|r rows].
  - vm_compute in Hassign. injection Hassign as <-.
    split; [reflexivity|]. left. repeat constructor.
  - destruct (Nat.eq_dec (len (arange_plus_1 n_top)) (len (r :: rows)))
      as [Heq|Hneq].
    + rewrite assign_index_match in Hassign by (auto; discriminate).
      remember (combine (arange_plus_1 n_top) (map Some (r :: rows))) as c
        eqn:Hc.
      injection Hassign as <-. rewrite Hc. split.
      * change (map fst (combine (arange_plus_1 n_top)
                                 (map Some (r :: rows)))
                = arange_plus_1 n_top).
        apply combine_fst. now rewrite length_map.
      * right. apply Forall_forall. intros [rank row] Hin.
        apply in_combine_r in Hin. apply in_map_iff in Hin.
        destruct Hin as (x & <- & _). now exists x.
    + rewrite assign_index_mismatch in Hassign by (auto; discriminate).
      discriminate.
Qed.

Lemma make_dataframes_leaderboard_has_ten_ranks_witness :
  fst (make_dataframes sample_batch (seq 0 10) sample_state)
  = inr sample_drained_state
  /\ exists top : Leaderboard,
       df_top sample_drained_state = Some top
       /\ map fst top = [1; 2; 3; 4; 5; 6; 7; 8; 9; 10]%Z
       /\ (Forall (fun row => snd row = None) top
           \/ Forall (fun row => exists r, snd row = Some r) top).
Proof.
  assert (Hrun : fst (make_dataframes sample_batch (seq 0 10) sample_state)
                 = inr sample_drained_state) by (vm_compute; reflexivity).
  split; [exact Hrun|].
  exact (make_dataframes_leaderboard_has_ten_ranks sample_batch (seq 0 10)
           sample_state sample_drained_state Hrun).
Defined.

Lemma single_row_keys {X} (h : X -> list ResultRow) (kf : X -> GroupKey)
      (l : list X) :
  (forall x, In x l -> exists m, h x = [m] /\ group_key m = kf x) ->
  map group_key (List.concat (map h l)) = map kf l.
Proof.
  induction l as [|x l IH]; intros Hall; simpl; [reflexivity|].
  destruct (Hall x (or_introl eq_refl)) as (m & -> & Hk).
  simpl. rewrite Hk, IH; [reflexivity|].
  intros y Hy. apply Hall. now right.
Qed.

Lemma unit_metrics_of_outcome (wait_for : list Future) :
  map unit_metrics wait_for
  = map (fun o => match o with Returned out => snd out | Raised _ => [] end)
        (map outcome wait_for).
Proof. rewrite map_map. reflexivity. Qed.

Section LaunchFacts.
Variable run_cv_select : Callable.
Variable LambdaFunction : Callable -> string -> Callable.
Variable finish_tick : nat -> nat.
Variable run_pipeline : list DataRow -> string -> string -> Z -> list Future.
Variable resample : list DataRow -> string -> list DataRow.

(** X25. A launch on the 'AWS Lambda' backend, end to end: when the
    resampled dataset is not empty and the first remote call for every
    payload returns one metrics row carrying the payload's groupKey, then,
    given fuel for every poll and whatever order the futures are yielded
    in, the progress monitor returns and [make_dataframes] assigns a
    metrics table with exactly one row per distinct groupKey of the
    resampled dataset, also when it goes on to raise on the leaderboard. *)
Theorem launch_on_lambda_one_metrics_row_per_group :
  forall (order : list nat) (freq_in : Freq) (horiz : Z)
         (st : SessionState),
    let freq := FREQ_MAP (freq_out st) in
    let df2 := resample (df st) freq in
    let payloads := run_lambdamap_payloads df2 horiz freq in
    let wait_for :=
      run_lambdamap run_cv_select LambdaFunction finish_tick df2 horiz freq in
    df2 <> [] ->
    Permutation order (seq 0 (len wait_for)) ->
    (forall p, In p payloads ->
       exists preds m,
         LambdaFunction run_cv_select "LambdaMapFunction" 0 p
         = Returned (preds, [m])
         /\ forall r, In r (payload_frame p) -> group_key m = group_key r) ->
    exists (progress : Progress) (tbl : list ResultRow),
      launch_forecast run_cv_select LambdaFunction finish_tick run_pipeline
        resample (last_done_at wait_for) order "AWS Lambda" freq_in horiz st
      = inr (Some (progress, make_dataframes wait_for order st))
      /\ df_results (snd (make_dataframes wait_for order st)) = Some tbl
      /\ Permutation (map group_key tbl) (unique key_eqb (map group_key df2))
      /\ len tbl = len (nodup key_dec (map group_key df2)).
Proof.
  intros order freq_in horiz st freq df2 payloads wait_for Hne Hperm Hunit.
  destruct (display_progress_returns wait_for (Some "Generating forecast"%string))
    as (progress & Hprog & _).
  (* the futures hold the first remote call on each payload *)
  assert (Hout : map outcome wait_for
                 = map (LambdaFunction run_cv_select "LambdaMapFunction" 0)
                       payloads).
  { unfold wait_for, run_lambdamap, run_lambdamap_executor,
      StreamlitExecutor_map. fold payloads.
    cbn [_lambda_arn StreamlitExecutor].
    destruct (submit_all_spec finish_tick
                (LambdaFunction run_cv_select "LambdaMapFunction") payloads
                (StreamlitExecutor (Nat.min 1000 (len payloads))
                   "LambdaMapFunction")) as (_ & _ & _ & _ & Ho).
    exact Ho. }
  assert (Hall : Forall (fun f => is_completed f = true) wait_for).
  { apply Forall_forall. intros f Hf.
    apply (in_map outcome) in Hf. rewrite Hout in Hf.
    apply in_map_iff in Hf. destruct Hf as (p & Hp & Hin).
    destruct (Hunit p Hin) as (preds & m & Hret & _).
    unfold is_completed. now rewrite <- Hp, Hret. }
  destruct (yielded_completed wait_for order Hperm Hall)
    as (raw & Hres & Hlen & _ & Hm).
  assert (Hpay : payloads <> []).
  { intros Hnil. apply Hne.
    pose proof (groupby_rows df2 false) as Hrows.
    unfold payloads, run_lambdamap_payloads in Hnil.
    apply map_eq_nil in Hnil. rewrite Hnil in Hrows.
    apply Permutation_nil in Hrows. exact Hrows. }
  assert (Hraw : raw <> []).
  { intros ->. apply Hpay.
    apply (f_equal (@List.length _)) in Hout. rewrite !length_map in Hout.
    destruct payloads; [reflexivity | simpl in *; lia]. }
  (* the metrics rows of the batch, group by group *)
  assert (Hkeys : map group_key (List.concat (map unit_metrics wait_for))
                  = unique key_eqb (map group_key df2)).
  { rewrite unit_metrics_of_outcome, Hout, map_map.
    unfold payloads, run_lambdamap_payloads. rewrite map_map.
    rewrite <- groupby_first_seen_keys.
    apply single_row_keys. intros [k dd] Hin.
    set (p := {| args := (dd, horiz, freq);
                 kwargs := {| obj_metric := "smape_mean"; cv_stride := 2 |} |}).
    assert (Hp : In p payloads).
    { unfold payloads, run_lambdamap_payloads. apply in_map_iff.
      exists (k, dd). split; [reflexivity | exact Hin]. }
    destruct (Hunit p Hp) as (preds & m & Hret & Hkey).
    exists m. rewrite Hret. split; [reflexivity|].
    destruct (groupby_first_seen_groups_of df2) as (_ & Hk & Hrows).
    pose proof (Hrows k dd Hin) as Hdd.
    assert (Hpresent : rows_of_key df2 k <> []).
    { apply rows_of_key_present, Hk. apply (in_map fst) in Hin. exact Hin. }
    destruct (rows_of_key df2 k) as [|r rows] eqn:E; [congruence|].
    pose proof (rows_of_key_same_key df2 k) as Hsame. rewrite E in Hsame.
    apply Forall_inv in Hsame.
    simpl. rewrite <- Hsame. apply Hkey. unfold payload_frame; simpl.
    rewrite Hdd. now left. }
  assert (Htbl : Permutation (List.concat (map snd raw))
                             (List.concat (map unit_metrics wait_for))).
  { rewrite Hm, <- !flat_map_concat_map.
    apply Permutation_flat_map, as_completed_permutation, Hperm. }
  exists progress, (List.concat (map snd raw)).
  split.
  { unfold launch_forecast. cbn [String.eqb Ascii.eqb Bool.eqb].
    fold freq df2 wait_for. rewrite Hprog. reflexivity. }
  split.
  { rewrite (make_dataframes_drained _ _ st raw Hres Hraw).
    destruct (assign_index _ _); reflexivity. }
  split.
  { rewrite <- Hkeys. apply Permutation_map, Htbl. }
  rewrite <- (length_map group_key), (Permutation_length
                                       (Permutation_map group_key Htbl)).
  rewrite Hkeys, <- groupby_first_seen_keys, length_map.
  apply groups_of_length, groupby_first_seen_groups_of.
Qed.
End LaunchFacts.

Lemma launch_on_lambda_one_metrics_row_per_group_witness :
  let resample := fun (df : list DataRow) (_ : string) => df in
  let run_pipeline :=
    fun (_ : list DataRow) (_ _ : string) (_ : Z) => @nil Future in
  let freq := FREQ_MAP (freq_out sample_state) in
  let df2 := resample (df sample_state) freq in
  let payloads := run_lambdamap_payloads df2 4%Z freq in
  let wait_for :=
    run_lambdamap sample_cv_select echo_LambdaFunction (fun i => i)
      df2 4%Z freq in
  df2 <> []
  /\ Permutation [1; 0] (seq 0 (len wait_for))
  /\ (forall p, In p payloads ->
        exists preds m,
          echo_LambdaFunction sample_cv_select "LambdaMapFunction" 0 p
          = Returned (preds, [m])
          /\ forall r, In r (payload_frame p) -> group_key m = group_key r)
  /\ exists (progress : Progress) (tbl : list ResultRow),
       launch_forecast sample_cv_select echo_LambdaFunction (fun i => i)
         run_pipeline resample (last_done_at wait_for) [1; 0] "AWS Lambda"
         Daily 4%Z sample_state
       = inr (Some (progress, make_dataframes wait_for [1; 0] sample_state))
       /\ df_results (snd (make_dataframes wait_for [1; 0] sample_state))
          = Some tbl
       /\ Permutation (map group_key tbl)
                      (unique key_eqb (map group_key df2))
       /\ len tbl = len (nodup key_dec (map group_key df2)).
Proof.
  intros resample run_pipeline freq df2 payloads wait_for.
  assert (Hne : df2 <> []) by discriminate.
  assert (Hperm : Permutation [1; 0] (seq 0 (len wait_for))).
  { apply perm_swap. }
  assert (Hunit : forall p, In p payloads ->
            exists preds m,
              echo_LambdaFunction sample_cv_select "LambdaMapFunction" 0 p
              = Returned (preds, [m])
              /\ forall r, In r (payload_frame p) -> group_key m = group_key r).
  { intros p Hin. vm_compute in Hin.
    destruct Hin as [<-|[<-|[]]]; eexists; eexists;
      (split; [reflexivity|]); intros r Hr; simpl in Hr;
      repeat (destruct Hr as [<-|Hr]; [reflexivity|]); contradiction. }
  repeat (split; [assumption|]).
  exact (launch_on_lambda_one_metrics_row_per_group sample_cv_select
           echo_LambdaFunction (fun i => i) run_pipeline resample
           [1; 0] Daily 4%Z sample_state Hne Hperm Hunit).
Defined.
